(** * Rasa X community: background scheduler and Git HTTP endpoints

    A shallow embedding of

    - [rasax/community/scheduler.py]: the control loop body
      [_handle_next_queue_item] with [_add_job_to_dump_files], [_modify_job],
      [_get_merged_job_kwargs] and [_merge_single_job_kwarg];
    - [rasax/community/api/blueprints/git.py]: the handlers [add_repository],
      [update_repository], [checkout_branch] and [create_commit];
    - [rasax/community/services/integrated_version_control/exceptions.py]:
      the exception classes and their inheritance.

    Python dictionaries are insertion-ordered association lists, Python sets
    are [gset]s, the job table of the scheduler is a [gmap] from job ids to
    jobs.  Code that raises is modelled in a state-and-exception monad. *)

From stdpp Require Import gmap strings list pretty.

Local Set Warnings "-register-all".
Local Open Scope string_scope.

(** ** Exceptions *)

Module Exn.

(** The exception classes the embedded code raises or catches:
    Python built-ins, APScheduler's [JobLookupError] and [ConflictingIdError],
    [RasaLicenseException] of [rasax.community.utils.common], and the classes
    declared in [integrated_version_control/exceptions.py]. *)
Inductive exn :=
| Exception
| LookupError
| KeyError
| JobLookupError
| ConflictingIdError
| TypeError
| ValueError
| RasaLicenseException
| GitConcurrentOperationException
| GitCommitError
| CredentialsError
| GitHTTPSCredentialsError
| ProjectLayoutError.

#[global] Instance exn_eq_dec : EqDecision exn.
Proof. solve_decision. Defined.

(** The direct base class; [Exception] is the root of the fragment.
    [class GitHTTPSCredentialsError(CredentialsError)] is the only
    declaration of [exceptions.py] that does not derive from [Exception]
    directly; [JobLookupError] and [ConflictingIdError] are APScheduler's
    subclasses of [KeyError]. *)
Definition base (e : exn) : option exn :=
  match e with
  | Exception => None
  | KeyError => Some LookupError
  | JobLookupError => Some KeyError
  | ConflictingIdError => Some KeyError
  | GitHTTPSCredentialsError => Some CredentialsError
  | _ => Some Exception
  end.

(** [issubclass e cls], by walking up [base] at most [depth] times. *)
Fixpoint issubclass_upto (depth : nat) (e cls : exn) : bool :=
  bool_decide (e = cls)
  || match depth, base e with
     | S depth', Some b => issubclass_upto depth' b cls
     | _, _ => false
     end.

(** No class of the fragment is more than three steps below [Exception]. *)
Definition issubclass (e cls : exn) : bool := issubclass_upto 3 e cls.

End Exn.
Export Exn.

(** ** A state-and-exception monad *)

Inductive result (A : Type) :=
| Ok (a : A)
| Raise (e : exn).
Arguments Ok {A} a.
Arguments Raise {A} e.

Definition M (St A : Type) : Type := St -> result A * St.

#[global] Instance M_ret {St} : MRet (M St) := fun A a s => (Ok a, s).

#[global] Instance M_bind {St} : MBind (M St) := fun A B k m s =>
  match m s with
  | (Ok a, s') => k a s'
  | (Raise e, s') => (Raise e, s')
  end.

Definition raise {St A} (e : exn) : M St A := fun s => (Raise e, s).

Definition get_state {St} : M St St := fun s => (Ok s, s).

Definition modify_state {St} (f : St -> St) : M St unit := fun s => (Ok tt, f s).

(** A pure computation that may raise, run inside the monad. *)
Definition lift {St A} (r : result A) : M St A := fun s => (r, s).

(** [for x in xs: body(x)]; an exception ends the loop. *)
Fixpoint for_each {St A} (xs : list A) (body : A -> M St unit) : M St unit :=
  match xs with
  | [] => mret tt
  | x :: xs' => body x;; for_each xs' body
  end.

(** One [except cls as e: handler(e)] clause. *)
Definition except_clause (St A : Type) : Type := (exn * (exn -> M St A))%type.

(** The clauses of a [try] statement are tried in order; the first one whose
    class the raised exception is an instance of handles it, and an exception
    no clause matches propagates. *)
Fixpoint dispatch {St A} (clauses : list (except_clause St A)) (e : exn)
  : M St A :=
  match clauses with
  | [] => raise e
  | (cls, handler) :: rest =>
      if issubclass e cls then handler e else dispatch rest e
  end.

Definition try_except {St A} (body : M St A)
    (clauses : list (except_clause St A)) : M St A :=
  fun s =>
    match body s with
    | (Ok a, s') => (Ok a, s')
    | (Raise e, s') => dispatch clauses e s'
    end.

(** ** Python values *)

Module Py.

(** The values that travel as job [kwargs]:
    [Union[bool, Text, Dict, Set, List, None]] and integers.  Dictionaries
    keep their insertion order; sets hold [Text] elements. *)
Inductive pyval :=
| PNone
| PBool (b : bool)
| PInt (n : Z)
| PStr (s : string)
| PSet (s : gset string)
| PList (l : list pyval)
| PDict (d : list (string * pyval)).

Abbreviation dict := (list (string * pyval)).

(** [type(v)] *)
Inductive pytype :=
| NoneType | bool_t | int_t | str_t | set_t | list_t | dict_t.

#[global] Instance pytype_eq_dec : EqDecision pytype.
Proof. solve_decision. Defined.

Definition type (v : pyval) : pytype :=
  match v with
  | PNone => NoneType
  | PBool _ => bool_t
  | PInt _ => int_t
  | PStr _ => str_t
  | PSet _ => set_t
  | PList _ => list_t
  | PDict _ => dict_t
  end.

(** [isinstance(v, t)] for the classes the scheduler tests.  [bool] is a
    subclass of [int], and none of the tested classes has another subclass
    among the modelled values. *)
Definition isinstance (v : pyval) (t : pytype) : bool :=
  bool_decide (type v = t)
  || (bool_decide (type v = bool_t) && bool_decide (t = int_t)).

(** [v is None] *)
Definition is_None (v : pyval) : bool :=
  match v with
  | PNone => true
  | _ => false
  end.

(** Truth value of an object: [None], [False], zero and empty containers are
    false. *)
Definition truthy (v : pyval) : bool :=
  match v with
  | PNone => false
  | PBool b => b
  | PInt n => negb (n =? 0)%Z
  | PStr s => negb (bool_decide (s = ""))
  | PSet s => negb (bool_decide (s = ∅))
  | PList l => negb (bool_decide (length l = 0))
  | PDict d => negb (bool_decide (length d = 0))
  end.

(** Sets, lists and dicts cannot be hashed. *)
Definition hashable (v : pyval) : bool :=
  match v with
  | PSet _ | PList _ | PDict _ => false
  | _ => true
  end.

(** [v == s] for a string [s]. *)
Definition str_eq (v : pyval) (s : string) : bool :=
  match v with
  | PStr k => bool_decide (k = s)
  | _ => false
  end.

(** *** Dictionaries *)

(** [d.get(key)] as an option; [dict_get_or_none] is the Python value. *)
Fixpoint dict_get (key : string) (d : dict) : option pyval :=
  match d with
  | [] => None
  | (k, v) :: d' => if bool_decide (k = key) then Some v else dict_get key d'
  end.

Definition dict_get_or_none (key : string) (d : dict) : pyval :=
  default PNone (dict_get key d).

(** [d[key] = v]: an existing key keeps its position, a new key goes last. *)
Fixpoint dict_set (key : string) (v : pyval) (d : dict) : dict :=
  match d with
  | [] => [(key, v)]
  | (k, w) :: d' =>
      if bool_decide (k = key) then (k, v) :: d'
      else (k, w) :: dict_set key v d'
  end.

(** [del d[key]] for a key that may be absent. *)
Fixpoint dict_remove (key : string) (d : dict) : dict :=
  match d with
  | [] => []
  | (k, w) :: d' =>
      if bool_decide (k = key) then dict_remove key d'
      else (k, w) :: dict_remove key d'
  end.

(** [d.pop(key)] and [d.pop(key, default)]: the value and the remaining
    dictionary. *)
Definition dict_pop (key : string) (d : dict) : result (pyval * dict) :=
  match dict_get key d with
  | Some v => Ok (v, dict_remove key d)
  | None => Raise KeyError
  end.

Definition dict_pop_default (key : string) (dflt : pyval) (d : dict)
  : pyval * dict :=
  (default dflt (dict_get key d), dict_remove key d).

(** [{**d, **e}]: the items of [d], then those of [e] assigned in order. *)
Definition dict_update (d e : dict) : dict :=
  fold_left (fun acc kv => dict_set kv.1 kv.2 acc) e d.

(** The keys of a Python dictionary are pairwise distinct. *)
Definition dict_wf (d : dict) : Prop := NoDup d.*1.

End Py.
Export Py.

(** ** Log records *)

Module Log.

Inductive level := DEBUG | WARNING | ERROR.

(** The messages the embedded code logs, with the values their f-strings
    interpolate. *)
Inductive message :=
| Kwargs_type_mismatch (key : string) (updated_type current_type : pytype)
    (* "Tried to update job kwargs '{key}' with a value of type
       '{type(updated)}' while the current type is '{type(current)}'." *)
| Job_not_found (job_id : pyval)
    (* "Did not find a scheduled job with id '{job_id}'." *)
| Created_dump_job
    (* "Created job to dump files in the background." *)
| Running_immediately (job_id : string)
    (* "Running job with id '{job_id}' immediately." *)
| Modifying_job (job_id : string)
    (* "Modifying job with id '{background_job.id}'." *)
| Exception_text (e : exn)
    (* logger.error(e), logger.debug(e) *)
| Text (s : string).

Definition record : Type := level * message.

End Log.

(** ** The background scheduler, [rasax/community/scheduler.py] *)

Module Scheduler.

Definition JOB_ID_KEY : string := "job_id".
Definition CANCEL_JOB_KEY : string := "cancel".

(** The two constants [scheduler.py] reads from other modules:
    [background_dump_service.BACKGROUND_DUMPING_JOB_ID] and
    [rasa_x_config.MAX_DUMPING_DELAY_IN_SECONDS]. *)
Class Config := {
  BACKGROUND_DUMPING_JOB_ID : string;
  MAX_DUMPING_DELAY_IN_SECONDS : Z;
}.

(** Points in time ([datetime]) are counted in seconds. *)
Abbreviation datetime := Z.

(** The functions the scheduler runs. *)
Inductive callable :=
| DumpService_dump_changes
| git_service_run_background_synchronization
| telemetry_track_project_status
| AnalyticsService_run_analytics_caching.

Inductive trigger :=
| date (run_date : datetime)
| cron
| interval (seconds : Z).

(** An APScheduler [Job], with the attributes the module reads and writes. *)
Record Job := {
  id : string;
  func : callable;
  job_trigger : trigger;
  next_run_time : option datetime;
  kwargs : dict;
}.

(** The [BackgroundScheduler]: its job table (the default in-memory job
    store, indexed by job id) and the log of the process. *)
Record scheduler_state := {
  jobs : gmap string Job;
  log : list Log.record;
}.

Definition logger (l : Log.level) (m : Log.message) : M scheduler_state unit :=
  modify_state (fun s => {| jobs := jobs s; log := log s ++ [(l, m)] |}).

(** [scheduler.get_job(job_id)]: the stored job or [None].  The job store
    looks the id up in a dictionary whose keys are the ids of the jobs, all
    strings: a value that is not hashable is refused with [TypeError], and
    no other value than a string finds a job. *)
Definition get_job (job_id : pyval) : M scheduler_state (option Job) :=
  s ← get_state;
  if hashable job_id
  then mret (match job_id with
             | PStr k => jobs s !! k
             | _ => None
             end)
  else raise TypeError.

(** [scheduler.remove_job(job_id)]; an id without a job is refused. *)
Definition remove_job (job_id : pyval) : M scheduler_state unit :=
  existing ← get_job job_id;
  match job_id, existing with
  | PStr k, Some _ =>
      modify_state (fun s => {| jobs := delete k (jobs s); log := log s |})
  | _, _ => raise JobLookupError
  end.

(** [scheduler.add_job(func, trigger, id=..., kwargs=...)] without
    [replace_existing]: an id that is taken is refused. *)
Definition add_job (j : Job) : M scheduler_state unit :=
  s ← get_state;
  match jobs s !! id j with
  | Some _ => raise ConflictingIdError
  | None =>
      modify_state (fun s => {| jobs := <[id j := j]> (jobs s); log := log s |})
  end.

(** The [changes] of [_modify_job], as passed to [Job.modify]. *)
Record changes := {
  changes_next_run_time : option datetime;
  changes_kwargs : dict;
}.

(** [background_job.modify] with the keyword arguments [changes] *)
Definition Job_modify (background_job : Job) (c : changes)
  : M scheduler_state unit :=
  let modified :=
    {| id := id background_job;
       func := func background_job;
       job_trigger := job_trigger background_job;
       next_run_time :=
         match changes_next_run_time c with
         | Some t => Some t
         | None => next_run_time background_job
         end;
       kwargs := changes_kwargs c |} in
  modify_state (fun s =>
    {| jobs := <[id background_job := modified]> (jobs s); log := log s |}).

(** *** Merging [kwargs] *)

(** [current | updated], [current + updated] and
    [{**current, **updated}], for the left operands the merge applies them
    to: a set, a list and a dict.  The right operand has to be of the same
    kind. *)
Definition py_or (current updated : pyval) : result pyval :=
  match current, updated with
  | PSet c, PSet u => Ok (PSet (c ∪ u))
  | _, _ => Raise TypeError
  end.

Definition py_add (current updated : pyval) : result pyval :=
  match current, updated with
  | PList c, PList u => Ok (PList (c ++ u))
  | _, _ => Raise TypeError
  end.

Definition py_unpack_both (current updated : pyval) : result pyval :=
  match current, updated with
  | PDict c, PDict u => Ok (PDict (dict_update c u))
  | _, _ => Raise TypeError
  end.

Definition _merge_single_job_kwarg (current updated : pyval) : result pyval :=
  if is_None current then Ok updated
  else if is_None updated then Ok current
  else if isinstance current set_t then py_or current updated
  else if isinstance current list_t then py_add current updated
  else if isinstance current dict_t then py_unpack_both current updated
  else if isinstance current bool_t then Ok updated
  else Ok PNone.                     (* falls off the end: returns None *)

(** The frame of the loop in [_get_merged_job_kwargs]: the dictionary object
    bound to [merged_job_modification], and the log. *)
Record merge_frame := {
  merged_job_modification : dict;
  frame_log : list Log.record;
}.

(** The guard of the loop:
    [current and updated and type(current) != type(updated)]. *)
Definition type_mismatch (current updated : pyval) : bool :=
  truthy current && truthy updated
  && negb (bool_decide (type current = type updated)).

(** The record of [logger.warning] in the loop. *)
Definition warn (key : string) (updated current : pyval) : Log.record :=
  (Log.WARNING, Log.Kwargs_type_mismatch key (type updated) (type current)).

(** The body of [for key, updated in new_job_kwargs.items()]. *)
Definition merge_item (item : string * pyval) : M merge_frame unit :=
  let '(key, updated) := item in
  f ← get_state;
  let current := dict_get_or_none key (merged_job_modification f) in
  if type_mismatch current updated
  then
    modify_state (fun f =>
      {| merged_job_modification := merged_job_modification f;
         frame_log := frame_log f ++ [warn key updated current] |})
    (* continue *)
  else
    merged ← lift (_merge_single_job_kwarg current updated);
    modify_state (fun f =>
      {| merged_job_modification :=
           dict_set key merged (merged_job_modification f);
         frame_log := frame_log f |}).

Definition merge_loop (new_job_kwargs : dict) : M merge_frame unit :=
  for_each new_job_kwargs merge_item.

(** [merged_job_modification = existing_job.kwargs or {}]: for non-empty
    [kwargs] the loop assigns into the dictionary of the stored job itself,
    and what it has assigned stays there when it raises; for empty [kwargs]
    it fills a fresh dictionary. *)
Definition _get_merged_job_kwargs (existing_job : Job) (new_job_kwargs : dict)
  : M scheduler_state dict :=
  fun s =>
    let shared := truthy (PDict (kwargs existing_job)) in
    let '(r, f) :=
      merge_loop new_job_kwargs
        {| merged_job_modification :=
             if shared then kwargs existing_job else [];
           frame_log := log s |} in
    let with_kwargs (j : Job) :=
      {| id := id j; func := func j; job_trigger := job_trigger j;
         next_run_time := next_run_time j;
         kwargs := merged_job_modification f |} in
    let s' :=
      {| jobs := if shared
                 then alter with_kwargs (id existing_job) (jobs s)
                 else jobs s;
         log := frame_log f |} in
    match r with
    | Ok _ => (Ok (merged_job_modification f), s')
    | Raise e => (Raise e, s')
    end.

(** The dictionary [_get_merged_job_kwargs] returns for a job whose
    [kwargs] are [current]; it does not depend on the rest of the state. *)
Definition merged_kwargs (current new_job_kwargs : dict) : result dict :=
  match merge_loop new_job_kwargs
          {| merged_job_modification := current; frame_log := [] |} with
  | (Ok _, f) => Ok (merged_job_modification f)
  | (Raise e, _) => Raise e
  end.

Section WithConfig.
Context {config : Config}.

Definition _modify_job (now : datetime) (background_job : Job)
    (job_modification : dict) : M scheduler_state unit :=
  let job_id := id background_job in
  let '(run_immediately, job_modification) :=
    dict_pop_default "run_immediately" (PBool false) job_modification in
  next ← (if truthy run_immediately
          then logger Log.DEBUG (Log.Running_immediately job_id);;
               mret (Some now)
          else mret None);
  merged ← _get_merged_job_kwargs background_job job_modification;
  Job_modify background_job
    {| changes_next_run_time := next; changes_kwargs := merged |};;
  logger Log.DEBUG (Log.Modifying_job (id background_job)).

Definition _add_job_to_dump_files (now : datetime) (job_information : dict)
  : M scheduler_state unit :=
  let dumping_delay := (now + MAX_DUMPING_DELAY_IN_SECONDS)%Z in
  add_job
    {| id := BACKGROUND_DUMPING_JOB_ID;
       func := DumpService_dump_changes;
       job_trigger := date dumping_delay;
       next_run_time := Some dumping_delay;
       kwargs := job_information |};;
  logger Log.DEBUG Log.Created_dump_job.

(** [now] is what [datetime.now()] returns while the item is handled. *)
Definition _handle_next_queue_item (now : datetime) (job_information : dict)
  : M scheduler_state unit :=
  '(job_id, job_information) ← lift (dict_pop JOB_ID_KEY job_information);
  existing_job ← get_job job_id;
  let '(should_cancel_job, job_information) :=
    dict_pop_default CANCEL_JOB_KEY (PBool false) job_information in
  if truthy should_cancel_job && bool_decide (is_Some existing_job)
  then remove_job job_id                      (* return *)
  else
    match existing_job with
    | Some job => _modify_job now job job_information
    | None =>
        if str_eq job_id BACKGROUND_DUMPING_JOB_ID
        then _add_job_to_dump_files now job_information
        else logger Log.WARNING (Log.Job_not_found job_id)
    end.

(** The loop of [_run_scheduler] on the items that arrive on the queue, each
    with the time at which it is handled; an exception leaves the loop. *)
Definition consume (items : list (datetime * dict)) : M scheduler_state unit :=
  for_each items (fun item => _handle_next_queue_item item.1 item.2).

End WithConfig.

(** *** The client side: commands put on the queue *)

(** [modify_job(job_id, **kwargs)]: the item put on the queue.  [job_id] is
    a named parameter, so Python accepts no call whose keyword arguments
    hold a [job_id] of their own: [kwargs] are those of an accepted call. *)
Definition modify_job (job_id : string) (kwargs : dict) : dict :=
  dict_set JOB_ID_KEY (PStr job_id) kwargs.

(** [run_job_immediately(job_id, **kwargs)]; a [job_id] or a
    [run_immediately] among the [kwargs] is a duplicate argument, which
    Python refuses with [TypeError] before anything is put on the queue. *)
Definition run_job_immediately (job_id : string) (kwargs : dict)
  : result dict :=
  match dict_get JOB_ID_KEY kwargs, dict_get "run_immediately" kwargs with
  | None, None =>
      Ok (modify_job job_id (("run_immediately", PBool true) :: kwargs))
  | _, _ => Raise TypeError
  end.

(** [cancel_job(job_id)] *)
Definition cancel_job (job_id : string) : dict :=
  [(JOB_ID_KEY, PStr job_id); (CANCEL_JOB_KEY, PBool true)].

End Scheduler.

(** ** The Git endpoints, [rasax/community/api/blueprints/git.py] *)

Module HTTPStatus.
Definition OK : Z := 200.
Definition CREATED : Z := 201.
Definition NO_CONTENT : Z := 204.
Definition BAD_REQUEST : Z := 400.
Definition FORBIDDEN : Z := 403.
Definition NOT_FOUND : Z := 404.
Definition CONFLICT : Z := 409.
Definition UNPROCESSABLE_ENTITY : Z := 422.
End HTTPStatus.

Module Http.

Record Request := {
  request_json : pyval;                  (* request.json *)
  request_args : list (string * string); (* the query string *)
}.

Inductive body :=
| json_body (v : pyval)
| text_body (s : string)
| error_body (reason : string) (message : option string)
    (details : option exn).

Record HTTPResponse := {
  status : Z;
  content : body;
}.

(** [response.json(v, status)] and [response.text(s, status)] *)
Definition response_json (v : pyval) (st : Z) : HTTPResponse :=
  {| status := st; content := json_body v |}.

Definition response_text (s : string) (st : Z) : HTTPResponse :=
  {| status := st; content := text_body s |}.

(** Modelled from the spec: [common_utils.error(status, reason, message,
    details)] is defined outside the embedded files; the failure taxonomy of
    the spec answers with the given HTTP status and the error code [reason],
    and this response keeps all four arguments. *)
Definition error (st : Z) (reason : string) (message : option string)
    (details : option exn) : HTTPResponse :=
  {| status := st; content := error_body reason message details |}.

End Http.
Export Http.

(** The methods of [GitService] the handlers call.  The service is created
    per request by [_git] from the project and repository ids; its methods
    act on a state [Svc] (database and working copy) and may raise. *)
Module GitService.

Record handle := {
  project_id : string;
  repository_id : option Z;
}.

Class methods (Svc : Type) := {
  save_repository : handle -> pyval -> M Svc pyval;
  trigger_immediate_project_synchronization : handle -> M Svc unit;
  update_repository : handle -> pyval -> M Svc pyval;
  (* checkout_branch(branch_name, force=..., inject_changes=...) *)
  checkout_branch : handle -> string -> bool -> bool -> M Svc unit;
  (* synchronize_project(force_data_injection=...) *)
  synchronize_project : handle -> bool -> M Svc unit;
  commit_and_push_changes_to : handle -> string -> M Svc pyval;
}.

End GitService.

(** [common_utils.bool_arg(request, name, default)], defined outside the
    embedded files. *)
Class CommonUtils := {
  bool_arg : Request -> string -> bool -> bool;
}.

Module WebSocket.

Inductive MessageTopic := IVC.

Record Message := {
  topic : MessageTopic;
  name : string;
  data : option dict;
}.

End WebSocket.

Module GitBlueprint.

(** What a handler acts on: the state behind the Git service, the messages
    handed to the websocket service, and the log. *)
Record api_state (Svc : Type) := {
  service : Svc;
  websocket : list WebSocket.Message;
  log : list Log.record;
}.
Arguments service {Svc} _.
Arguments websocket {Svc} _.
Arguments log {Svc} _.

Section Handlers.
Context {Svc : Type} {git : GitService.methods Svc} {utils : CommonUtils}.

(** A call of a service method from a handler; for the coroutine methods
    this is the [await]: the handler goes on when the call has returned or
    raised. *)
Definition call {A} (m : M Svc A) : M (api_state Svc) A :=
  fun s =>
    let '(r, svc) := m (service s) in
    (r, {| service := svc; websocket := websocket s; log := log s |}).

Definition logger (l : Log.level) (m : Log.message) : M (api_state Svc) unit :=
  modify_state (fun s =>
    {| service := service s; websocket := websocket s;
       log := log s ++ [(l, m)] |}).

(** Modelled from the spec: [websocket_service.send_message] is the
    fire-and-forget [NotificationSink.publish]; it records the message and
    does not raise. *)
Definition send_message (m : WebSocket.Message) : M (api_state Svc) unit :=
  modify_state (fun s =>
    {| service := service s; websocket := websocket s ++ [m];
       log := log s |}).

Definition _git (request : Request) (project_id : string)
    (repository_id : option Z) : GitService.handle :=
  {| GitService.project_id := project_id;
     GitService.repository_id := repository_id |}.

(** [POST /projects/<project_id>/git_repositories] *)
Definition add_repository (request : Request) (project_id : string)
  : M (api_state Svc) HTTPResponse :=
  let git_service := _git request project_id None in
  try_except
    (saved ← call (GitService.save_repository git_service
                     (request_json request));
     call (GitService.trigger_immediate_project_synchronization git_service);;
     send_message
       {| WebSocket.topic := WebSocket.IVC; WebSocket.name := "connected";
          WebSocket.data := None |};;
     mret (response_json saved HTTPStatus.CREATED))
    [ (RasaLicenseException, fun e =>
         mret (error HTTPStatus.CONFLICT "RasaEnterpriseRequired" None
                 (Some e)));
      (ProjectLayoutError, fun e =>
         logger Log.ERROR (Log.Exception_text e);;
         mret (error HTTPStatus.BAD_REQUEST "RepositoryCreationFailed"
                 (Some "The repository does not have the expected project layout.")
                 (Some e)));
      (CredentialsError, fun e =>
         logger Log.ERROR
           (Log.Text "An error occurred while creating a new repository:");;
         logger Log.ERROR (Log.Exception_text e);;
         mret (error HTTPStatus.UNPROCESSABLE_ENTITY "RepositoryCreationFailed"
                 (Some "Insufficient permissions for remote repository.")
                 (Some e))) ].

(** [PUT /projects/<project_id>/git_repositories/<repository_id>] *)
Definition update_repository (request : Request) (project_id : string)
    (repository_id : Z) : M (api_state Svc) HTTPResponse :=
  let git_service := _git request project_id (Some repository_id) in
  try_except
    (updated ← call (GitService.update_repository git_service
                       (request_json request));
     mret (response_json updated HTTPStatus.OK))
    [ (RasaLicenseException, fun e =>
         mret (error HTTPStatus.CONFLICT "RasaEnterpriseRequired" None
                 (Some e)));
      (GitHTTPSCredentialsError, fun e =>
         mret (error HTTPStatus.FORBIDDEN "IncorrectCredentials" None
                 (Some e)));
      (ProjectLayoutError, fun e =>
         mret (error HTTPStatus.BAD_REQUEST "InvalidProjectLayout"
                 (Some ("Repository with ID '" +:+ pretty repository_id
                        +:+ "' does not have a valid Rasa project layout."))
                 (Some e)));
      (ValueError, fun e =>
         logger Log.DEBUG (Log.Exception_text e);;
         mret (error HTTPStatus.NOT_FOUND "RepositoryNotFound"
                 (Some ("Repository with '" +:+ pretty repository_id
                        +:+ "' could not be found."))
                 (Some e))) ].

(** [PUT /projects/<project_id>/git_repositories/<repository_id>/branches/<branch_name>] *)
Definition checkout_branch (request : Request) (project_id : string)
    (repository_id : Z) (branch_name : string)
  : M (api_state Svc) HTTPResponse :=
  let git_service := _git request project_id (Some repository_id) in
  let discard_any_changes := bool_arg request "force" false in
  try_except
    (call (GitService.checkout_branch git_service branch_name
             discard_any_changes false);;
     (* wait for project synchronization to finish *)
     call (GitService.synchronize_project git_service true);;
     mret (response_text "" HTTPStatus.NO_CONTENT))
    [ (ProjectLayoutError, fun e =>
         logger Log.DEBUG (Log.Exception_text e);;
         mret (error HTTPStatus.BAD_REQUEST "InvalidProjectLayout"
                 (Some ("Branch '" +:+ branch_name
                        +:+ "' for repository with ID '"
                        +:+ pretty repository_id
                        +:+ "' does not have a valid Rasa project layout."))
                 (Some e)));
      (ValueError, fun e =>
         logger Log.DEBUG (Log.Exception_text e);;
         mret (error HTTPStatus.NOT_FOUND "BranchNotFound"
                 (Some ("Branch '" +:+ branch_name
                        +:+ "' for repository with ID '"
                        +:+ pretty repository_id
                        +:+ "' could not be found."))
                 (Some e))) ].

(** [POST /projects/<project_id>/git_repositories/<repository_id>/branches/<branch_name>/commits];
    [now] is what [time.time()] returns, in seconds. *)
Definition create_commit (now : Z) (request : Request) (project_id : string)
    (repository_id : Z) (branch_name : string)
  : M (api_state Svc) HTTPResponse :=
  let git_service := _git request project_id (Some repository_id) in
  try_except
    (commit ← call (GitService.commit_and_push_changes_to git_service
                      branch_name);
     send_message
       {| WebSocket.topic := WebSocket.IVC;
          WebSocket.name := "changes_pushed";
          WebSocket.data :=
            Some [ ("repository_id", PInt repository_id);
                   ("branch_name", PStr branch_name);
                   ("time", PInt now) ] |};;
     mret (response_json commit HTTPStatus.CREATED))
    [ (ValueError, fun e =>
         logger Log.DEBUG (Log.Exception_text e);;
         mret (error HTTPStatus.NOT_FOUND "RepositoryNotFound"
                 (Some ("Branch '" +:+ branch_name
                        +:+ "' for repository with ID '"
                        +:+ pretty repository_id
                        +:+ "' could not be found."))
                 None));
      (GitCommitError, fun e =>
         logger Log.DEBUG (Log.Exception_text e);;
         mret (error HTTPStatus.FORBIDDEN "BranchIsProtected"
                 (Some ("Branch '" +:+ branch_name
                        +:+ "' is protected. Please add your changes to a different branch."))
                 None));
      (GitConcurrentOperationException, fun e =>
         mret (error HTTPStatus.CONFLICT "AnotherIVCOperationInProgress"
                 (Some "There is another Integrated Version Control operation in progress.")
                 None)) ].

End Handlers.

End GitBlueprint.

(** ** The remaining repository endpoints of [git.py] *)

(** The methods of [GitService] behind the lookup and delete endpoints. *)
Module GitRepositoryService.

Class methods (Svc : Type) := {
  get_repository : GitService.handle -> M Svc pyval;
  delete_repository : GitService.handle -> M Svc unit;
  get_repository_status : GitService.handle -> M Svc pyval;
}.

End GitRepositoryService.

Module GitRepositoryBlueprint.
Import GitBlueprint.

Section Handlers.
Context {Svc : Type} {repositories : GitRepositoryService.methods Svc}.

(** The answer of the three handlers to [ValueError]. *)
Definition repository_not_found (repository_id : Z) (e : exn)
  : M (api_state Svc) HTTPResponse :=
  logger Log.DEBUG (Log.Exception_text e);;
  mret (error HTTPStatus.NOT_FOUND "RepositoryNotFound"
          (Some ("Repository with ID '" +:+ pretty repository_id
                 +:+ "' could not be found."))
          (Some e)).

(** [GET /projects/<project_id>/git_repositories/<repository_id>] *)
Definition get_repository (request : Request) (project_id : string)
    (repository_id : Z) : M (api_state Svc) HTTPResponse :=
  let git_service := _git request project_id (Some repository_id) in
  try_except
    (repository ← call (GitRepositoryService.get_repository git_service);
     mret (response_json repository HTTPStatus.OK))
    [ (ValueError, repository_not_found repository_id) ].

(** [DELETE /projects/<project_id>/git_repositories/<repository_id>] *)
Definition delete_repository (request : Request) (project_id : string)
    (repository_id : Z) : M (api_state Svc) HTTPResponse :=
  let git_service := _git request project_id (Some repository_id) in
  try_except
    (call (GitRepositoryService.delete_repository git_service);;
     mret (response_text "" HTTPStatus.NO_CONTENT))
    [ (ValueError, repository_not_found repository_id) ].

(** [GET /projects/<project_id>/git_repositories/<repository_id>/status] *)
Definition get_repository_status (request : Request) (project_id : string)
    (repository_id : Z) : M (api_state Svc) HTTPResponse :=
  let git_service := _git request project_id (Some repository_id) in
  try_except
    (repository_status ←
       call (GitRepositoryService.get_repository_status git_service);
     mret (response_json repository_status HTTPStatus.OK))
    [ (ValueError, repository_not_found repository_id) ].

End Handlers.

End GitRepositoryBlueprint.

(** ** Well-formed job tables *)

Module JobTable.
Import Scheduler.

(** Every job is stored under its own id, as the job store of the scheduler
    keeps it. *)
Definition jobs_wf (s : scheduler_state) : Prop :=
  forall k j, jobs s !! k = Some j -> id j = k.

End JobTable.

(** ** Sample inputs *)

Module Samples.

(** A configuration for the closed examples: an id for the dump job and a
    delay of a minute. *)
Definition sample_config : Scheduler.Config :=
  {| Scheduler.BACKGROUND_DUMPING_JOB_ID := "background_dumping_job";
     Scheduler.MAX_DUMPING_DELAY_IN_SECONDS := 60 |}.

Definition idle : Scheduler.scheduler_state :=
  {| Scheduler.jobs := ∅; Scheduler.log := [] |}.

(** A pending dump job with the given [kwargs]. *)
Definition dump_job (kw : dict) : Scheduler.Job :=
  {| Scheduler.id := "background_dumping_job";
     Scheduler.func := Scheduler.DumpService_dump_changes;
     Scheduler.job_trigger := Scheduler.date 160;
     Scheduler.next_run_time := Some 160%Z;
     Scheduler.kwargs := kw |}.

Definition pending (kw : dict) : Scheduler.scheduler_state :=
  {| Scheduler.jobs := {[ "background_dumping_job" := dump_job kw ]};
     Scheduler.log := [] |}.

(** A Git service without state whose methods all raise [e], and one whose
    methods all return. *)
Definition failing_service (e : exn) : GitService.methods unit :=
  {| GitService.save_repository := fun _ _ => raise e;
     GitService.trigger_immediate_project_synchronization := fun _ => raise e;
     GitService.update_repository := fun _ _ => raise e;
     GitService.checkout_branch := fun _ _ _ _ => raise e;
     GitService.synchronize_project := fun _ _ => raise e;
     GitService.commit_and_push_changes_to := fun _ _ => raise e |}.

Definition working_service : GitService.methods unit :=
  {| GitService.save_repository := fun _ repository => mret repository;
     GitService.trigger_immediate_project_synchronization := fun _ => mret tt;
     GitService.update_repository := fun _ repository => mret repository;
     GitService.checkout_branch := fun _ _ _ _ => mret tt;
     GitService.synchronize_project := fun _ _ => mret tt;
     GitService.commit_and_push_changes_to := fun _ branch =>
       mret (PDict [("branch", PStr branch)]) |}.

(** A [bool_arg] that reads ["true"] as true. *)
Definition sample_utils : CommonUtils :=
  {| bool_arg := fun request name dflt =>
       match list_find (fun kv => kv.1 = name) (request_args request) with
       | Some (_, (_, v)) => bool_decide (v = "true")
       | None => dflt
       end |}.

Definition sample_request : Request :=
  {| request_json := PDict [("repository_url", PStr "https://example.com/r.git")];
     request_args := [("force", "true")] |}.

Definition fresh : GitBlueprint.api_state unit :=
  {| GitBlueprint.service := tt; GitBlueprint.websocket := [];
     GitBlueprint.log := [] |}.

End Samples.

(** A repository service without state whose methods all raise [e]. *)
Module RepositorySamples.

Definition failing_repositories (e : exn)
  : GitRepositoryService.methods unit :=
  {| GitRepositoryService.get_repository := fun _ => raise e;
     GitRepositoryService.delete_repository := fun _ => raise e;
     GitRepositoryService.get_repository_status := fun _ => raise e |}.

End RepositorySamples.

(** * Properties *)

(** ** Dictionaries *)

Section DictFacts.
Implicit Types (d e : dict) (k key : string) (v : pyval).

Lemma dict_get_set_eq key v d : dict_get key (dict_set key v d) = Some v.
Proof.
  induction d as [|[k w] d IH]; simpl.
  - by rewrite bool_decide_eq_true_2.
  - destruct (bool_decide (k = key)) eqn:E; simpl; rewrite E; [done | apply IH].
Qed.

Lemma dict_get_set_ne key k v d :
  key ≠ k -> dict_get k (dict_set key v d) = dict_get k d.
Proof.
  intros Hne. induction d as [|[k' w] d IH]; simpl.
  - rewrite bool_decide_eq_false_2; done.
  - destruct (bool_decide (k' = key)) eqn:E; simpl.
    + apply bool_decide_eq_true_1 in E. subst k'.
      rewrite !bool_decide_eq_false_2; done.
    + by rewrite IH.
Qed.

Lemma dict_get_None_notin key d : dict_get key d = None <-> key ∉ d.*1.
Proof.
  induction d as [|[k w] d IH]; simpl.
  - split; [intros _; apply not_elem_of_nil | done].
  - rewrite not_elem_of_cons. case_bool_decide; subst.
    + split; [done | intros [? _]; done].
    + rewrite IH. split; [intros ?; split; [congruence | done] | intros [_ ?]; done].
Qed.

Lemma dict_get_remove_eq key d : dict_get key (dict_remove key d) = None.
Proof.
  induction d as [|[k w] d IH]; simpl; [done|].
  case_bool_decide as E; simpl; [done|].
  by rewrite bool_decide_eq_false_2.
Qed.

Lemma dict_get_remove_ne key k d :
  key ≠ k -> dict_get k (dict_remove key d) = dict_get k d.
Proof.
  intros Hne. induction d as [|[k' w] d IH]; simpl; [done|].
  case_bool_decide as E; simpl.
  - subst k'. by rewrite bool_decide_eq_false_2.
  - by rewrite IH.
Qed.


Lemma kwargs_or_empty d : (if truthy (PDict d) then d else []) = d.
Proof. by destruct d. Qed.

End DictFacts.

(** ** The scheduler *)

Module SchedulerFacts.
Import Scheduler.

Implicit Types (d new : dict) (key : string) (current updated : pyval)
  (f : merge_frame) (s : scheduler_state) (job : Job).

(** One round of the loop, spelled out. *)
Lemma merge_item_eq key updated f :
  merge_item (key, updated) f
  = let current := dict_get_or_none key (merged_job_modification f) in
    if type_mismatch current updated
    then (Ok tt,
          {| merged_job_modification := merged_job_modification f;
             frame_log := frame_log f ++ [warn key updated current] |})
    else match _merge_single_job_kwarg current updated with
         | Ok merged =>
             (Ok tt,
              {| merged_job_modification :=
                   dict_set key merged (merged_job_modification f);
                 frame_log := frame_log f |})
         | Raise e => (Raise e, f)
         end.
Proof.
  unfold merge_item, mbind, M_bind, get_state, lift, modify_state; simpl.
  destruct (type_mismatch _ _); [done|].
  by destruct (_merge_single_job_kwarg _ _).
Qed.

Lemma merge_loop_cons key updated new f :
  merge_loop ((key, updated) :: new) f
  = match merge_item (key, updated) f with
    | (Ok _, f') => merge_loop new f'
    | (Raise e, f') => (Raise e, f')
    end.
Proof. reflexivity. Qed.

(** A round leaves the other keys alone, whatever its outcome. *)
Lemma merge_item_other key updated k f r f' :
  merge_item (key, updated) f = (r, f') ->
  key ≠ k ->
  dict_get k (merged_job_modification f')
  = dict_get k (merged_job_modification f).
Proof.
  rewrite merge_item_eq. cbv zeta. intros Hrun Hne.
  destruct (type_mismatch _ _).
  - by inversion Hrun.
  - destruct (_merge_single_job_kwarg _ _); inversion Hrun; subst; simpl;
      [by apply dict_get_set_ne | done].
Qed.

(** The loop leaves the keys alone that the update does not mention. *)
Lemma merge_loop_other new k f r f' :
  merge_loop new f = (r, f') ->
  dict_get k new = None ->
  dict_get k (merged_job_modification f')
  = dict_get k (merged_job_modification f).
Proof.
  revert f. induction new as [|[key updated] new IH]; intros f Hrun Hk.
  - by inversion Hrun.
  - simpl in Hk. case_bool_decide as E; [done|].
    rewrite merge_loop_cons in Hrun.
    destruct (merge_item (key, updated) f) as [[[]|e] f1] eqn:Hitem.
    + rewrite (IH f1 Hrun Hk). by eapply merge_item_other.
    + inversion Hrun; subst. by eapply merge_item_other.
Qed.

(** The loop only appends to the log. *)
Lemma merge_loop_log_mono new f r f' (w : Log.record) :
  merge_loop new f = (r, f') -> w ∈ frame_log f -> w ∈ frame_log f'.
Proof.
  revert f. induction new as [|[k u] new IH]; intros f Hrun Hin.
  - inversion Hrun; by subst.
  - rewrite merge_loop_cons, merge_item_eq in Hrun. cbv zeta in Hrun.
    destruct (type_mismatch _ _).
    + eapply IH; [done|]. simpl. set_solver.
    + destruct (_merge_single_job_kwarg _ _).
      * eapply IH; done.
      * inversion Hrun; by subst.
Qed.

(** What a completed loop has done to a key of the update: nothing when the
    guard fired, and otherwise it holds the merged value. *)
Lemma merge_loop_key new key updated f f' :
  dict_wf new ->
  dict_get key new = Some updated ->
  merge_loop new f = (Ok tt, f') ->
  let current := dict_get_or_none key (merged_job_modification f) in
  if type_mismatch current updated
  then dict_get key (merged_job_modification f')
       = dict_get key (merged_job_modification f)
       /\ warn key updated current ∈ frame_log f'
  else exists merged,
         _merge_single_job_kwarg current updated = Ok merged
         /\ dict_get key (merged_job_modification f') = Some merged.
Proof.
  revert f. induction new as [|[k u] new IH]; intros f Hwf Hk Hrun; [done|].
  apply NoDup_cons in Hwf as [Hnotin Hwf].
  rewrite merge_loop_cons in Hrun. simpl in Hk.
  destruct (merge_item (k, u) f) as [[[]|e] f1] eqn:Hitem; [|done].
  case_bool_decide as E.
  - (* this round handles [key] *)
    subst k. inversion Hk; subst u. clear Hk.
    apply dict_get_None_notin in Hnotin. simpl in Hnotin.
    pose proof (merge_loop_other _ _ _ _ _ Hrun Hnotin) as Hrest.
    rewrite merge_item_eq in Hitem. cbv zeta in *.
    destruct (type_mismatch _ _).
    + inversion Hitem; subst f1; simpl in *. split; [done|].
      eapply merge_loop_log_mono; [done|]. simpl. set_solver.
    + destruct (_merge_single_job_kwarg _ _) as [merged|] eqn:Hm; [|done].
      inversion Hitem; subst f1; simpl in *.
      exists merged. split; [done|]. rewrite Hrest. apply dict_get_set_eq.
  - (* an earlier round for another key *)
    pose proof (merge_item_other _ _ _ _ _ _ Hitem E) as Hsame.
    specialize (IH f1 Hwf Hk Hrun). cbv zeta in IH.
    unfold dict_get_or_none in *. rewrite Hsame in IH. done.
Qed.
(** [_get_merged_job_kwargs] in terms of the loop. *)
Lemma _get_merged_job_kwargs_eq job new s :
  _get_merged_job_kwargs job new s
  = let '(r, f) :=
      merge_loop new
        {| merged_job_modification := kwargs job; frame_log := log s |} in
    let with_kwargs (j : Job) :=
      {| id := id j; func := func j; job_trigger := job_trigger j;
         next_run_time := next_run_time j;
         kwargs := merged_job_modification f |} in
    (match r with
     | Ok _ => Ok (merged_job_modification f)
     | Raise e => Raise e
     end,
     {| jobs := if truthy (PDict (kwargs job))
                then alter with_kwargs (id job) (jobs s)
                else jobs s;
        log := frame_log f |}).
Proof.
  unfold _get_merged_job_kwargs. rewrite kwargs_or_empty.
  destruct (merge_loop _ _) as [[[]|e] f]; reflexivity.
Qed.

Lemma _get_merged_job_kwargs_Ok job new s merged s' :
  _get_merged_job_kwargs job new s = (Ok merged, s') ->
  exists f,
    merge_loop new
      {| merged_job_modification := kwargs job; frame_log := log s |}
    = (Ok tt, f)
    /\ merged = merged_job_modification f
    /\ log s' = frame_log f.
Proof.
  rewrite _get_merged_job_kwargs_eq.
  destruct (merge_loop _ _) as [[[]|e] f]; intros Hrun; inversion Hrun.
  by exists f.
Qed.


Lemma type_mismatch_same_type current updated :
  type current = type updated -> type_mismatch current updated = false.
Proof.
  intros Ht. unfold type_mismatch. rewrite bool_decide_eq_true_2 by done.
  by rewrite andb_false_r.
Qed.


(** *** C1 *)



(** *** C2 *)

(** C2 as stated fails: with the current value [False] and the update a
    set, the types differ, and the update replaces the value without a
    warning instead of being dropped. *)
Lemma mismatched_update_not_always_dropped :
  ~ (forall job new s key current updated,
       dict_wf new ->
       dict_get key (kwargs job) = Some current ->
       dict_get key new = Some updated ->
       type current ≠ type updated ->
       exists merged s',
         _get_merged_job_kwargs job new s = (Ok merged, s')
         /\ dict_get key merged = Some current
         /\ warn key updated current ∈ log s').
Proof.
  intros Hclaim.
  destruct (Hclaim (Samples.dump_job [("domain_changed", PBool false)])
              [("domain_changed", PSet {["a"]})]
              (Samples.pending [("domain_changed", PBool false)])
              "domain_changed" (PBool false) (PSet {["a"]}))
    as (merged & s' & Hrun & Hkept & _); [apply NoDup_singleton | done..|].
  vm_compute in Hrun. inversion Hrun; subst merged.
  vm_compute in Hkept. discriminate Hkept.
Qed.

(** C2, amended.  When the current value of a key and its update are both
    truthy and of different types, the round of the loop for that key logs a
    warning, leaves the dictionary as it is and does not raise; and in every
    merge that completes, the key still has its current value and the warning
    is in the log. *)
Theorem truthy_mismatched_update_dropped job new s key current updated :
  dict_wf new ->
  dict_get key (kwargs job) = Some current ->
  dict_get key new = Some updated ->
  truthy current = true ->
  truthy updated = true ->
  type current ≠ type updated ->
  (forall f,
     dict_get key (merged_job_modification f) = Some current ->
     merge_item (key, updated) f
     = (Ok tt,
        {| merged_job_modification := merged_job_modification f;
           frame_log := frame_log f ++ [warn key updated current] |}))
  /\ (forall merged s',
        _get_merged_job_kwargs job new s = (Ok merged, s') ->
        dict_get key merged = Some current
        /\ warn key updated current ∈ log s').
Proof.
  intros Hwf Hc Hu Htc Htu Hty.
  assert (Hguard : type_mismatch current updated = true).
  { unfold type_mismatch. rewrite Htc, Htu. simpl.
    by rewrite bool_decide_eq_false_2. }
  split.
  - intros f Hf. rewrite merge_item_eq. cbv zeta.
    unfold dict_get_or_none. rewrite Hf. simpl. by rewrite Hguard.
  - intros merged s' Hrun.
    apply _get_merged_job_kwargs_Ok in Hrun as (f & Hloop & -> & ->).
    pose proof (merge_loop_key _ _ _ _ _ Hwf Hu Hloop) as Hspec.
    cbv zeta in Hspec. unfold dict_get_or_none in Hspec. simpl in Hspec.
    rewrite Hc in Hspec. simpl in Hspec. rewrite Hguard in Hspec.
    destruct Hspec as [-> Hin]. done.
Qed.

(** A list-typed value and a set-typed update: the list stays. *)
Lemma truthy_mismatched_update_dropped_list_set :
  let job := Samples.dump_job [("files", PList [PStr "a"])] in
  let new := [("files", PSet {["b"]})] in
  dict_wf new
  /\ dict_get "files" (kwargs job) = Some (PList [PStr "a"])
  /\ dict_get "files" new = Some (PSet {["b"]})
  /\ truthy (PList [PStr "a"]) = true
  /\ truthy (PSet {["b"]}) = true
  /\ type (PList [PStr "a"]) ≠ type (PSet {["b"]})
  /\ exists s',
       _get_merged_job_kwargs job new
         (Samples.pending [("files", PList [PStr "a"])])
       = (Ok [("files", PList [PStr "a"])], s')
       /\ dict_get "files" [("files", PList [PStr "a"])]
          = Some (PList [PStr "a"])
       /\ warn "files" (PSet {["b"]}) (PList [PStr "a"]) ∈ log s'.
Proof.
  intros job new.
  assert (Hwf : dict_wf new) by apply NoDup_singleton.
  assert (Hty : type (PList [PStr "a"]) ≠ type (PSet {["b"]})) by done.
  repeat (split; [first [exact Hwf | exact Hty | reflexivity]|]).
  eexists. split; [vm_compute; reflexivity|].
  pose proof (truthy_mismatched_update_dropped job new
    (Samples.pending [("files", PList [PStr "a"])])
    "files" (PList [PStr "a"]) (PSet {["b"]})
    Hwf eq_refl eq_refl eq_refl eq_refl Hty) as [_ Hmerge].
  exact (Hmerge _ _ eq_refl).
Defined.

(** *** C9 *)

(** C9.  Two values of one type that is neither set, list, dict nor bool
    (and not [None]) merge to [None]: the key of a completed merge holds
    [None], and an update of that key alone logs nothing. *)
Theorem same_type_without_merge_rule_gives_None current updated :
  is_None current = false ->
  is_None updated = false ->
  type current = type updated ->
  type current ∉ [set_t; list_t; dict_t; bool_t] ->
  _merge_single_job_kwarg current updated = Ok PNone
  /\ (forall job new s key merged s',
        dict_wf new ->
        dict_get key (kwargs job) = Some current ->
        dict_get key new = Some updated ->
        _get_merged_job_kwargs job new s = (Ok merged, s') ->
        dict_get key merged = Some PNone)
  /\ (forall job s key,
        dict_get key (kwargs job) = Some current ->
        exists s',
          _get_merged_job_kwargs job [(key, updated)] s
          = (Ok (dict_set key PNone (kwargs job)), s')
          /\ log s' = log s).
Proof.
  intros Hc Hu Hty Hnot.
  assert (Hm : _merge_single_job_kwarg current updated = Ok PNone).
  { destruct current, updated; try done; exfalso; apply Hnot; set_solver. }
  split; [exact Hm|]. split.
  - intros job new s key merged s' Hwf Hcur Hupd Hrun.
    apply _get_merged_job_kwargs_Ok in Hrun as (f & Hloop & -> & _).
    pose proof (merge_loop_key _ _ _ _ _ Hwf Hupd Hloop) as Hspec.
    cbv zeta in Hspec. unfold dict_get_or_none in Hspec. simpl in Hspec.
    rewrite Hcur in Hspec. simpl in Hspec.
    rewrite (type_mismatch_same_type _ _ Hty), Hm in Hspec.
    destruct Hspec as (m & Heq & ->). by inversion Heq.
  - intros job s key Hcur. rewrite _get_merged_job_kwargs_eq.
    rewrite merge_loop_cons, merge_item_eq. cbv zeta.
    unfold dict_get_or_none. simpl. rewrite Hcur. simpl.
    rewrite (type_mismatch_same_type _ _ Hty), Hm. simpl.
    by eexists.
Qed.

(** Two strings under one key. *)
Lemma same_type_without_merge_rule_gives_None_str :
  is_None (PStr "a") = false
  /\ is_None (PStr "b") = false
  /\ type (PStr "a") = type (PStr "b")
  /\ (type (PStr "a") ∉ [set_t; list_t; dict_t; bool_t])
  /\ _merge_single_job_kwarg (PStr "a") (PStr "b") = Ok PNone.
Proof.
  assert (Hnot : type (PStr "a") ∉ [set_t; list_t; dict_t; bool_t]).
  { simpl. intros Hin.
    repeat (apply elem_of_cons in Hin as [Hin|Hin]; [discriminate Hin|]).
    by apply elem_of_nil in Hin. }
  repeat (split; [first [exact Hnot | reflexivity]|]).
  exact (proj1 (same_type_without_merge_rule_gives_None (PStr "a") (PStr "b")
                  eq_refl eq_refl eq_refl Hnot)).
Defined.

(** *** C10 *)

Lemma app_singleton_neq {A} (l : list A) (x : A) : (l ++ [x])%list ≠ l.
Proof.
  intros Heq. apply (f_equal (@List.length A)) in Heq.
  rewrite length_app in Heq. simpl in Heq. lia.
Qed.

Lemma type_mismatch_true current updated :
  type_mismatch current updated = true
  <-> truthy current = true /\ truthy updated = true
      /\ type current ≠ type updated.
Proof.
  unfold type_mismatch.
  destruct (truthy current), (truthy updated); simpl;
    try (split; [discriminate | intros (? & ? & ?); discriminate]).
  case_bool_decide; simpl; split; try done.
  intros (_ & _ & ?); done.
Qed.

(** C10.  A round of the loop logs the warning exactly when the current
    value and the update are both truthy and of different types.  A falsy
    current set, list or dict therefore passes the guard with an update of
    another type, and the merge raises [TypeError] without a warning. *)
Theorem type_guard_bypassed_by_falsy_values :
  (forall key updated f r f',
     merge_item (key, updated) f = (r, f') ->
     let current := dict_get_or_none key (merged_job_modification f) in
     frame_log f' ≠ frame_log f
     <-> truthy current = true /\ truthy updated = true
         /\ type current ≠ type updated)
  /\ (forall job key s current updated,
        dict_get key (kwargs job) = Some current ->
        truthy current = false ->
        type current ∈ [set_t; list_t; dict_t] ->
        is_None updated = false ->
        type current ≠ type updated ->
        exists s',
          _get_merged_job_kwargs job [(key, updated)] s = (Raise TypeError, s')
          /\ log s' = log s).
Proof.
  split.
  - intros key updated f r f' Hitem current.
    rewrite merge_item_eq in Hitem. cbv zeta in Hitem. fold current in Hitem.
    rewrite <- (type_mismatch_true current updated).
    destruct (type_mismatch current updated).
    + inversion Hitem; subst; simpl. split; [done|].
      intros _. apply app_singleton_neq.
    + destruct (_merge_single_job_kwarg _ _); inversion Hitem; subst;
        (split; [done | discriminate]).
  - intros job key s current updated Hcur Hfalsy Hkind Hu Hty.
    rewrite _get_merged_job_kwargs_eq, merge_loop_cons, merge_item_eq.
    cbv zeta. unfold dict_get_or_none. simpl. rewrite Hcur. simpl.
    unfold type_mismatch. rewrite Hfalsy. simpl.
    assert (Hraise : _merge_single_job_kwarg current updated = Raise TypeError).
    { repeat (apply elem_of_cons in Hkind as [Hkind|Hkind]);
        [..| by apply elem_of_nil in Hkind];
        destruct current; try discriminate Hkind;
        destruct updated; done. }
    rewrite Hraise. by eexists.
Qed.

(** An empty set and a non-empty list. *)
Lemma type_guard_bypassed_by_falsy_values_empty_set :
  exists s',
    _get_merged_job_kwargs (Samples.dump_job [("files", PSet ∅)])
      [("files", PList [PStr "a"])] (Samples.pending [("files", PSet ∅)])
    = (Raise TypeError, s')
    /\ log s' = [].
Proof.
  assert (Hkind : type (PSet ∅) ∈ [set_t; list_t; dict_t]).
  { simpl. apply list_elem_of_here. }
  exact (proj2 type_guard_bypassed_by_falsy_values
           (Samples.dump_job [("files", PSet ∅)]) "files"
           (Samples.pending [("files", PSet ∅)])
           (PSet ∅) (PList [PStr "a"])
           eq_refl eq_refl Hkind eq_refl ltac:(discriminate)).
Defined.

(** *** Handling a queue item *)

(** The stored dictionary and the log do not influence each other. *)
Lemma merge_loop_log new d (l : list Log.record) :
  merge_loop new {| merged_job_modification := d; frame_log := l |}
  = let '(r, f) :=
      merge_loop new {| merged_job_modification := d; frame_log := [] |} in
    (r, {| merged_job_modification := merged_job_modification f;
           frame_log := l ++ frame_log f |}).
Proof.
  revert d l. induction new as [|[k u] new IH]; intros d l.
  - simpl. unfold mret, M_ret. by rewrite app_nil_r.
  - rewrite !merge_loop_cons, !merge_item_eq. cbv zeta. simpl.
    destruct (type_mismatch _ _).
    + rewrite IH. rewrite (IH d [_]).
      destruct (merge_loop new _) as [r f]. by rewrite <- app_assoc.
    + destruct (_merge_single_job_kwarg _ _); [apply IH|].
      by rewrite app_nil_r.
Qed.

Lemma _get_merged_job_kwargs_result job new s :
  (_get_merged_job_kwargs job new s).1 = merged_kwargs (kwargs job) new.
Proof.
  rewrite _get_merged_job_kwargs_eq. unfold merged_kwargs.
  rewrite merge_loop_log.
  by destruct (merge_loop new _) as [[[]|e] f].
Qed.

(** The merge changes no job id. *)
Lemma _get_merged_job_kwargs_dom job new s :
  dom (jobs (_get_merged_job_kwargs job new s).2) = dom (jobs s).
Proof.
  rewrite _get_merged_job_kwargs_eq.
  destruct (merge_loop new _) as [r f]. cbn [snd jobs].
  destruct (truthy (PDict (kwargs job))); [apply dom_alter_L | done].
Qed.

Section WithConfig.
Context {config : Config}.

(** [_modify_job], spelled out. *)
Lemma _modify_job_eq now job job_modification s :
  _modify_job now job job_modification s
  = let run_immediately :=
      default (PBool false) (dict_get "run_immediately" job_modification) in
    let s0 :=
      if truthy run_immediately
      then {| jobs := jobs s;
              log := log s
                ++ [(Log.DEBUG, Log.Running_immediately (id job))] |}
      else s in
    match _get_merged_job_kwargs job
            (dict_remove "run_immediately" job_modification) s0 with
    | (Ok merged, s1) =>
        (Ok tt,
         {| jobs :=
              <[id job :=
                  {| id := id job; func := func job;
                     job_trigger := job_trigger job;
                     next_run_time :=
                       if truthy run_immediately then Some now
                       else next_run_time job;
                     kwargs := merged |}]> (jobs s1);
            log := log s1 ++ [(Log.DEBUG, Log.Modifying_job (id job))] |})
    | (Raise e, s1) => (Raise e, s1)
    end.
Proof.
  unfold _modify_job, dict_pop_default. cbv zeta.
  unfold mbind, M_bind, mret, M_ret, logger, Job_modify, modify_state.
  destruct (truthy _); simpl;
    by destruct (_get_merged_job_kwargs _ _ _) as [[merged|e] s1].
Qed.

(** [_handle_next_queue_item] for an item whose [job_id] is a string. *)
Lemma _handle_next_queue_item_eq now job_information s k :
  dict_get JOB_ID_KEY job_information = Some (PStr k) ->
  _handle_next_queue_item now job_information s
  = let without_id := dict_remove JOB_ID_KEY job_information in
    let should_cancel_job :=
      default (PBool false) (dict_get CANCEL_JOB_KEY without_id) in
    let rest := dict_remove CANCEL_JOB_KEY without_id in
    match jobs s !! k with
    | Some job =>
        if truthy should_cancel_job
        then (Ok tt, {| jobs := delete k (jobs s); log := log s |})
        else _modify_job now job rest s
    | None =>
        if bool_decide (k = BACKGROUND_DUMPING_JOB_ID)
        then _add_job_to_dump_files now rest s
        else (Ok tt,
              {| jobs := jobs s;
                 log := log s
                   ++ [(Log.WARNING, Log.Job_not_found (PStr k))] |})
    end.
Proof.
  intros Hid. unfold _handle_next_queue_item, dict_pop, dict_pop_default.
  rewrite Hid. cbv zeta.
  unfold mbind at 1, M_bind at 1, lift at 1.
  unfold mbind at 1, M_bind at 1, get_job at 1.
  unfold mbind at 1, M_bind at 1, get_state at 1, mret at 1, M_ret at 1.
  destruct (jobs s !! k) as [job|] eqn:Hjob; simpl.
  - destruct (truthy _); simpl; [|done].
    unfold remove_job, get_job, mbind, M_bind, get_state, mret, M_ret,
      modify_state.
    by rewrite Hjob.
  - rewrite andb_false_r. by case_bool_decide.
Qed.

Lemma _add_job_to_dump_files_eq now job_information s :
  jobs s !! BACKGROUND_DUMPING_JOB_ID = None ->
  _add_job_to_dump_files now job_information s
  = (Ok tt,
     {| jobs :=
          <[BACKGROUND_DUMPING_JOB_ID :=
              {| id := BACKGROUND_DUMPING_JOB_ID;
                 func := DumpService_dump_changes;
                 job_trigger := date (now + MAX_DUMPING_DELAY_IN_SECONDS);
                 next_run_time := Some (now + MAX_DUMPING_DELAY_IN_SECONDS)%Z;
                 kwargs := job_information |}]> (jobs s);
        log := log s ++ [(Log.DEBUG, Log.Created_dump_job)] |}).
Proof.
  intros Hnone.
  unfold _add_job_to_dump_files, add_job, logger, mbind, M_bind, get_state,
    modify_state. simpl.
  by rewrite Hnone.
Qed.

(** *** C3 *)

(** Cancelling a scheduled job removes it. *)
Lemma cancel_removes_scheduled_job now s k job :
  jobs s !! k = Some job ->
  _handle_next_queue_item now (cancel_job k) s
  = (Ok tt, {| jobs := delete k (jobs s); log := log s |}).
Proof.
  intros Hjob.
  rewrite (_handle_next_queue_item_eq now (cancel_job k) s k) by reflexivity.
  cbv zeta. by rewrite Hjob.
Qed.

(** Cancelling an id that is not scheduled and is not the id of the dump job
    changes no job; a warning is logged. *)
Lemma cancel_of_unscheduled_job_keeps_jobs now s k :
  jobs s !! k = None ->
  k ≠ BACKGROUND_DUMPING_JOB_ID ->
  _handle_next_queue_item now (cancel_job k) s
  = (Ok tt,
     {| jobs := jobs s;
        log := log s ++ [(Log.WARNING, Log.Job_not_found (PStr k))] |}).
Proof.
  intros Hjob Hne.
  rewrite (_handle_next_queue_item_eq now (cancel_job k) s k) by reflexivity.
  cbv zeta. rewrite Hjob. by rewrite bool_decide_eq_false_2.
Qed.

(** C3, where the code departs from it.  Cancelling the dump job while none
    is scheduled is not a no-op: the command falls through to
    [_add_job_to_dump_files] and schedules a dump job with empty [kwargs]. *)
Theorem cancel_of_unscheduled_dump_job_schedules_one now s :
  jobs s !! BACKGROUND_DUMPING_JOB_ID = None ->
  _handle_next_queue_item now (cancel_job BACKGROUND_DUMPING_JOB_ID) s
  = (Ok tt,
     {| jobs :=
          <[BACKGROUND_DUMPING_JOB_ID :=
              {| id := BACKGROUND_DUMPING_JOB_ID;
                 func := DumpService_dump_changes;
                 job_trigger := date (now + MAX_DUMPING_DELAY_IN_SECONDS);
                 next_run_time := Some (now + MAX_DUMPING_DELAY_IN_SECONDS)%Z;
                 kwargs := [] |}]> (jobs s);
        log := log s ++ [(Log.DEBUG, Log.Created_dump_job)] |}).
Proof.
  intros Hjob.
  rewrite (_handle_next_queue_item_eq now _ s BACKGROUND_DUMPING_JOB_ID)
    by reflexivity.
  cbv zeta. rewrite Hjob, bool_decide_eq_true_2 by done.
  by rewrite _add_job_to_dump_files_eq.
Qed.

(** *** C7 *)

(** C7, amended.  An item for the dump job that does not ask for
    cancellation: with no dump job scheduled, one is added that runs once, at
    the handling time plus [MAX_DUMPING_DELAY_IN_SECONDS], with the remaining
    entries of the item as [kwargs]; with a dump job scheduled, no job id is
    added or removed, and whenever the merge of the entries of the item into
    the [kwargs] of that job completes, the item is handled and the job
    carries the merged [kwargs]. *)
Theorem dump_job_scheduled_once_then_merged now job_information s :
  dict_get JOB_ID_KEY job_information
  = Some (PStr BACKGROUND_DUMPING_JOB_ID) ->
  truthy (default (PBool false)
            (dict_get CANCEL_JOB_KEY
               (dict_remove JOB_ID_KEY job_information))) = false ->
  let rest :=
    dict_remove CANCEL_JOB_KEY (dict_remove JOB_ID_KEY job_information) in
  let outcome := _handle_next_queue_item now job_information s in
  (jobs s !! BACKGROUND_DUMPING_JOB_ID = None ->
   outcome
   = (Ok tt,
      {| jobs :=
           <[BACKGROUND_DUMPING_JOB_ID :=
               {| id := BACKGROUND_DUMPING_JOB_ID;
                  func := DumpService_dump_changes;
                  job_trigger := date (now + MAX_DUMPING_DELAY_IN_SECONDS);
                  next_run_time :=
                    Some (now + MAX_DUMPING_DELAY_IN_SECONDS)%Z;
                  kwargs := rest |}]> (jobs s);
         log := log s ++ [(Log.DEBUG, Log.Created_dump_job)] |}))
  /\ (forall job,
        jobs s !! BACKGROUND_DUMPING_JOB_ID = Some job ->
        id job = BACKGROUND_DUMPING_JOB_ID ->
        dom (jobs outcome.2) = dom (jobs s)
        /\ forall merged,
             merged_kwargs (kwargs job) (dict_remove "run_immediately" rest)
             = Ok merged ->
             outcome.1 = Ok tt
             /\ exists job',
                  jobs outcome.2 !! BACKGROUND_DUMPING_JOB_ID = Some job'
                  /\ kwargs job' = merged
                  /\ func job' = func job
                  /\ job_trigger job' = job_trigger job).
Proof.
  intros Hid Hcancel rest outcome. subst outcome.
  rewrite (_handle_next_queue_item_eq now _ s BACKGROUND_DUMPING_JOB_ID Hid).
  cbv zeta. fold rest. rewrite Hcancel. split.
  - intros Hnone. rewrite Hnone, bool_decide_eq_true_2 by done.
    by apply _add_job_to_dump_files_eq.
  - intros job Hjob Hjid. rewrite Hjob, _modify_job_eq. cbv zeta.
    set (s0 := if truthy _ then _ else s).
    assert (Hdom0 : dom (jobs s0) = dom (jobs s)).
    { subst s0.
      by destruct (truthy (default (PBool false)
                             (dict_get "run_immediately" rest))). }
    pose proof (_get_merged_job_kwargs_result job
                  (dict_remove "run_immediately" rest) s0) as Hres.
    pose proof (_get_merged_job_kwargs_dom job
                  (dict_remove "run_immediately" rest) s0) as Hdom.
    destruct (_get_merged_job_kwargs job _ s0) as [[merged|e] s1];
      simpl in Hres, Hdom; rewrite <- Hres; simpl.
    + split.
      * rewrite dom_insert_lookup_L; [by rewrite Hdom, Hdom0|].
        apply elem_of_dom. rewrite Hdom, Hdom0, Hjid.
        apply elem_of_dom. by eexists.
      * intros merged' [= <-]. split; [done|]. rewrite Hjid. eexists.
        split; [apply lookup_insert_eq | done].
    + split; [congruence | discriminate].
Qed.

(** *** C8 *)

(** C8, amended.  An item for a scheduled job that does not ask for
    cancellation and carries a truthy [run_immediately]: when the merge of
    its remaining entries into the [kwargs] of the job returns [merged], the
    job is stored with the handling time as its next run time and with
    [merged] as its [kwargs]. *)
Theorem run_immediately_sets_next_run_and_merges
    now job_information s k job v merged s1 :
  dict_get JOB_ID_KEY job_information = Some (PStr k) ->
  jobs s !! k = Some job ->
  truthy (default (PBool false)
            (dict_get CANCEL_JOB_KEY
               (dict_remove JOB_ID_KEY job_information))) = false ->
  let rest :=
    dict_remove CANCEL_JOB_KEY (dict_remove JOB_ID_KEY job_information) in
  dict_get "run_immediately" rest = Some v ->
  truthy v = true ->
  _get_merged_job_kwargs job (dict_remove "run_immediately" rest)
    {| jobs := jobs s;
       log := log s ++ [(Log.DEBUG, Log.Running_immediately (id job))] |}
  = (Ok merged, s1) ->
  _handle_next_queue_item now job_information s
  = (Ok tt,
     {| jobs :=
          <[id job :=
              {| id := id job; func := func job;
                 job_trigger := job_trigger job;
                 next_run_time := Some now;
                 kwargs := merged |}]> (jobs s1);
        log := log s1 ++ [(Log.DEBUG, Log.Modifying_job (id job))] |}).
Proof.
  intros Hid Hjob Hcancel rest Hrun Hv Hmerge.
  rewrite (_handle_next_queue_item_eq now _ s k Hid). cbv zeta. fold rest.
  rewrite Hjob, Hcancel, _modify_job_eq. cbv zeta.
  rewrite Hrun. simpl default. rewrite Hv, Hmerge. done.
Qed.

End WithConfig.

(** *** Closed instances *)

(** C7 as stated fails: an item for the dump job that asks for cancellation
    while a dump job is scheduled is not merged into it; the job is
    removed. *)
Lemma cancel_item_is_not_merged_into_dump_job :
  ~ (forall (config : Config) now job_information s,
       dict_get JOB_ID_KEY job_information
       = Some (PStr BACKGROUND_DUMPING_JOB_ID) ->
       let rest :=
         dict_remove CANCEL_JOB_KEY
           (dict_remove JOB_ID_KEY job_information) in
       let outcome := _handle_next_queue_item now job_information s in
       (jobs s !! BACKGROUND_DUMPING_JOB_ID = None ->
        exists job',
          jobs outcome.2 !! BACKGROUND_DUMPING_JOB_ID = Some job'
          /\ next_run_time job'
             = Some (now + MAX_DUMPING_DELAY_IN_SECONDS)%Z
          /\ kwargs job' = rest)
       /\ (forall job,
             jobs s !! BACKGROUND_DUMPING_JOB_ID = Some job ->
             id job = BACKGROUND_DUMPING_JOB_ID ->
             dom (jobs outcome.2) = dom (jobs s)
             /\ exists merged job',
                  merged_kwargs (kwargs job)
                    (dict_remove "run_immediately" rest) = Ok merged
                  /\ jobs outcome.2 !! BACKGROUND_DUMPING_JOB_ID = Some job'
                  /\ kwargs job' = merged)).
Proof.
  intros Hclaim.
  destruct (Hclaim Samples.sample_config 100%Z
              (cancel_job "background_dumping_job")
              (Samples.pending [("files", PSet {["a"]})]) eq_refl)
    as [_ Hmerge].
  destruct (Hmerge (Samples.dump_job [("files", PSet {["a"]})])
              eq_refl eq_refl)
    as (_ & merged & job' & _ & Hjob' & _).
  vm_compute in Hjob'. discriminate Hjob'.
Qed.

(** C8 as stated fails: when the merge of the remaining entries raises, the
    item is not handled and the job keeps its next run time. *)
Lemma run_immediately_lost_when_merge_raises :
  ~ (forall (config : Config) now job_information s k job v,
       dict_get JOB_ID_KEY job_information = Some (PStr k) ->
       jobs s !! k = Some job ->
       truthy (default (PBool false)
                 (dict_get CANCEL_JOB_KEY
                    (dict_remove JOB_ID_KEY job_information))) = false ->
       let rest :=
         dict_remove CANCEL_JOB_KEY
           (dict_remove JOB_ID_KEY job_information) in
       dict_get "run_immediately" rest = Some v ->
       truthy v = true ->
       exists s' job' merged,
         _handle_next_queue_item now job_information s = (Ok tt, s')
         /\ jobs s' !! k = Some job'
         /\ next_run_time job' = Some now
         /\ merged_kwargs (kwargs job) (dict_remove "run_immediately" rest)
            = Ok merged
         /\ kwargs job' = merged).
Proof.
  intros Hclaim.
  destruct (Hclaim Samples.sample_config 100%Z
              (modify_job "background_dumping_job"
                 [("run_immediately", PBool true);
                  ("files", PList [PStr "a"])])
              (Samples.pending [("files", PSet ∅)])
              "background_dumping_job"
              (Samples.dump_job [("files", PSet ∅)])
              (PBool true) eq_refl eq_refl eq_refl eq_refl eq_refl)
    as (s' & job' & merged & Hrun & _).
  vm_compute in Hrun. discriminate Hrun.
Qed.

Lemma cancel_of_unscheduled_dump_job_schedules_one_idle :
  jobs Samples.idle !! "background_dumping_job" = None
  /\ _handle_next_queue_item (config := Samples.sample_config) 100
       (cancel_job "background_dumping_job") Samples.idle
     = (Ok tt,
        {| jobs := {[ "background_dumping_job" := Samples.dump_job [] ]};
           log := [(Log.DEBUG, Log.Created_dump_job)] |}).
Proof.
  split; [reflexivity|].
  exact (cancel_of_unscheduled_dump_job_schedules_one
           (config := Samples.sample_config) 100 Samples.idle eq_refl).
Defined.

Lemma dump_job_scheduled_once_then_merged_idle :
  let first := modify_job "background_dumping_job" [("files", PSet {["a"]})] in
  let second := modify_job "background_dumping_job" [("files", PSet {["b"]})] in
  let pending := Samples.pending [("files", PSet {["a"]})] in
  dict_get JOB_ID_KEY first = Some (PStr "background_dumping_job")
  /\ truthy (default (PBool false)
               (dict_get CANCEL_JOB_KEY (dict_remove JOB_ID_KEY first)))
     = false
  /\ jobs Samples.idle !! "background_dumping_job" = None
  /\ _handle_next_queue_item (config := Samples.sample_config) 100
       first Samples.idle
     = (Ok tt,
        {| jobs := jobs pending; log := [(Log.DEBUG, Log.Created_dump_job)] |})
  /\ dom (jobs (_handle_next_queue_item (config := Samples.sample_config) 130
                  second pending).2)
     = dom (jobs pending)
  /\ exists job',
       jobs (_handle_next_queue_item (config := Samples.sample_config) 130
               second pending).2 !! "background_dumping_job" = Some job'
       /\ kwargs job' = [("files", PSet {["a"; "b"]})].
Proof.
  intros first second pending.
  split; [reflexivity|]. split; [reflexivity|]. split; [reflexivity|].
  split.
  - exact (proj1 (dump_job_scheduled_once_then_merged
                    (config := Samples.sample_config) 100 first
                    Samples.idle eq_refl eq_refl) eq_refl).
  - destruct (proj2 (dump_job_scheduled_once_then_merged
                       (config := Samples.sample_config) 130 second
                       pending eq_refl eq_refl)
                (Samples.dump_job [("files", PSet {["a"]})])
                eq_refl eq_refl)
      as (Hdom & Hmerged).
    destruct (Hmerged [("files", PSet {["a"; "b"]})] eq_refl)
      as (_ & job' & Hjob' & Hkwargs & _).
    split; [exact Hdom|]. by exists job'.
Defined.

(** The loop of the scheduler on two requests for the dump job: the first
    schedules it, the second is merged into it. *)
Lemma consume_two_dump_requests :
  consume (config := Samples.sample_config)
    [(100%Z, modify_job "background_dumping_job" [("files", PSet {["a"]})]);
     (130%Z, modify_job "background_dumping_job" [("files", PSet {["b"]})])]
    Samples.idle
  = (Ok tt,
     {| jobs := {[ "background_dumping_job"
                   := Samples.dump_job [("files", PSet {["a"; "b"]})] ]};
        log := [(Log.DEBUG, Log.Created_dump_job);
                (Log.DEBUG, Log.Modifying_job "background_dumping_job")] |}).
Proof. vm_compute. reflexivity. Qed.

Lemma run_immediately_sets_next_run_and_merges_dump_job :
  let job_information :=
    modify_job "background_dumping_job"
      [("run_immediately", PBool true); ("files", PSet {["b"]})] in
    run_job_immediately "background_dumping_job" [("files", PSet {["b"]})]
    = Ok job_information
    /\ dict_get JOB_ID_KEY job_information
       = Some (PStr "background_dumping_job")
    /\ dict_get "run_immediately"
         (dict_remove CANCEL_JOB_KEY (dict_remove JOB_ID_KEY job_information))
       = Some (PBool true)
    /\ _handle_next_queue_item (config := Samples.sample_config) 100
         job_information (Samples.pending [("files", PSet {["a"]})])
       = (Ok tt,
          {| jobs :=
               {[ "background_dumping_job" :=
                    {| id := "background_dumping_job";
                       func := DumpService_dump_changes;
                       job_trigger := date 160;
                       next_run_time := Some 100%Z;
                       kwargs := [("files", PSet {["a"; "b"]})] |} ]};
             log :=
               [(Log.DEBUG, Log.Running_immediately "background_dumping_job");
                (Log.DEBUG, Log.Modifying_job "background_dumping_job")] |}).
Proof.
  intros job_information. split; [reflexivity|].
  split; [reflexivity|]. split; [reflexivity|].
  exact (run_immediately_sets_next_run_and_merges
           (config := Samples.sample_config) 100 job_information
           (Samples.pending [("files", PSet {["a"]})])
           "background_dumping_job"
           (Samples.dump_job [("files", PSet {["a"]})])
           (PBool true)
           [("files", PSet {["a"; "b"]})]
           {| jobs := {[ "background_dumping_job"
                         := Samples.dump_job [("files", PSet {["a"; "b"]})] ]};
              log := [(Log.DEBUG,
                       Log.Running_immediately "background_dumping_job")] |}
           eq_refl eq_refl eq_refl eq_refl eq_refl eq_refl).
Defined.

End SchedulerFacts.

(** ** The Git endpoints *)

Module GitFacts.
Import GitBlueprint.

Ltac run_handler :=
  unfold try_except, call, logger, send_message, mbind, M_bind, mret, M_ret,
    modify_state; simpl.

Section WithService.
Context {Svc : Type} {git : GitService.methods Svc} {utils : CommonUtils}.

Implicit Types (request : Request) (s : api_state Svc).

(** A credential error is one of two classes. *)
Lemma issubclass_CredentialsError e :
  issubclass e CredentialsError = true ->
  e = CredentialsError \/ e = GitHTTPSCredentialsError.
Proof. destruct e; try discriminate; auto. Qed.

(** *** C4 *)

(** C4, amended.  When saving a new repository is refused with a credential
    error of either class, [add_repository] answers 422 with the code
    [RepositoryCreationFailed]; when updating a repository is refused with
    [GitHTTPSCredentialsError], [update_repository] answers 403 with the code
    [IncorrectCredentials]. *)
Theorem credential_rejection_responses request project_id repository_id s :
  (forall e svc',
     issubclass e CredentialsError = true ->
     GitService.save_repository (_git request project_id None)
       (request_json request) (service s) = (Raise e, svc') ->
     exists response s',
       add_repository request project_id s = (Ok response, s')
       /\ status response = 422%Z
       /\ content response
          = error_body "RepositoryCreationFailed"
              (Some "Insufficient permissions for remote repository.")
              (Some e)
       /\ service s' = svc')
  /\ (forall svc',
        GitService.update_repository
          (_git request project_id (Some repository_id))
          (request_json request) (service s)
        = (Raise GitHTTPSCredentialsError, svc') ->
        exists response s',
          update_repository request project_id repository_id s
          = (Ok response, s')
          /\ status response = 403%Z
          /\ content response
             = error_body "IncorrectCredentials" None
                 (Some GitHTTPSCredentialsError)
          /\ service s' = svc').
Proof.
  split.
  - intros e svc' He Hsave.
    unfold add_repository. run_handler. rewrite Hsave.
    destruct (issubclass_CredentialsError e He) as [-> | ->]; simpl;
      by eexists _, _.
  - intros svc' Hupdate.
    unfold update_repository. run_handler. rewrite Hupdate. simpl.
    by eexists _, _.
Qed.

(** A credential error of the base class is not handled by
    [update_repository]: it leaves the handler. *)
Lemma update_repository_CredentialsError_propagates
    request project_id repository_id s svc' :
  GitService.update_repository
    (_git request project_id (Some repository_id))
    (request_json request) (service s)
  = (Raise CredentialsError, svc') ->
  update_repository request project_id repository_id s
  = (Raise CredentialsError,
     {| service := svc'; websocket := websocket s; log := log s |}).
Proof.
  intros Hupdate. unfold update_repository. run_handler.
  by rewrite Hupdate.
Qed.

(** *** C5 *)

(** C5.  [create_commit] answers 201 with the commit when
    [commit_and_push_changes_to] returns it, 403 with the code
    [BranchIsProtected] when it raises [GitCommitError], and 409 with the
    code [AnotherIVCOperationInProgress] when it raises
    [GitConcurrentOperationException]. *)
Theorem create_commit_responses
    now request project_id repository_id branch_name s :
  let commit_and_push :=
    GitService.commit_and_push_changes_to
      (_git request project_id (Some repository_id)) branch_name (service s) in
  let outcome :=
    create_commit now request project_id repository_id branch_name s in
  (forall commit svc',
     commit_and_push = (Ok commit, svc') ->
     exists response s',
       outcome = (Ok response, s')
       /\ status response = 201%Z
       /\ content response = json_body commit
       /\ service s' = svc')
  /\ (forall svc',
        commit_and_push = (Raise GitCommitError, svc') ->
        exists response s' message,
          outcome = (Ok response, s')
          /\ status response = 403%Z
          /\ content response
             = error_body "BranchIsProtected" (Some message) None
          /\ service s' = svc' /\ websocket s' = websocket s)
  /\ (forall svc',
        commit_and_push = (Raise GitConcurrentOperationException, svc') ->
        exists response s' message,
          outcome = (Ok response, s')
          /\ status response = 409%Z
          /\ content response
             = error_body "AnotherIVCOperationInProgress" (Some message) None
          /\ service s' = svc' /\ websocket s' = websocket s).
Proof.
  intros commit_and_push outcome. subst commit_and_push outcome.
  unfold create_commit. run_handler.
  split; [|split].
  - intros commit svc' ->. simpl. by eexists _, _.
  - intros svc' ->. simpl. by eexists _, _, _.
  - intros svc' ->. simpl. by eexists _, _, _.
Qed.

(** *** C6 *)

(** C6.  When the checkout and then the synchronization of the project have
    both returned, [checkout_branch] answers 204 with an empty body, in the
    state the synchronization has left; it answers 204 in no other case, so
    the answer is given after the synchronization has finished.  It answers
    400 with the code [InvalidProjectLayout] when either of the two raises
    [ProjectLayoutError], and 404 with the code [BranchNotFound] when either
    raises [ValueError]. *)
Theorem checkout_branch_responses
    request project_id repository_id branch_name s :
  let git_service := _git request project_id (Some repository_id) in
  let checkout :=
    GitService.checkout_branch git_service branch_name
      (bool_arg request "force" false) false (service s) in
  let synchronize := GitService.synchronize_project git_service true in
  let outcome :=
    checkout_branch request project_id repository_id branch_name s in
  let raises e svc' :=
    checkout = (Raise e, svc')
    \/ exists svc1, checkout = (Ok tt, svc1)
                    /\ synchronize svc1 = (Raise e, svc') in
  (forall svc1 svc2,
     checkout = (Ok tt, svc1) ->
     synchronize svc1 = (Ok tt, svc2) ->
     outcome
     = (Ok {| status := 204; content := text_body "" |},
        {| service := svc2; websocket := websocket s; log := log s |}))
  /\ (forall response s',
        outcome = (Ok response, s') ->
        status response = 204%Z ->
        exists svc1,
          checkout = (Ok tt, svc1)
          /\ synchronize svc1 = (Ok tt, service s'))
  /\ (forall svc',
        raises ProjectLayoutError svc' ->
        exists response s' message,
          outcome = (Ok response, s')
          /\ status response = 400%Z
          /\ content response
             = error_body "InvalidProjectLayout" (Some message)
                 (Some ProjectLayoutError)
          /\ service s' = svc')
  /\ (forall svc',
        raises ValueError svc' ->
        exists response s' message,
          outcome = (Ok response, s')
          /\ status response = 404%Z
          /\ content response
             = error_body "BranchNotFound" (Some message) (Some ValueError)
          /\ service s' = svc').
Proof.
  cbv zeta. unfold checkout_branch. run_handler.
  set (co := GitService.checkout_branch _ _ _ _ _).
  split; [|split; [|split]].
  - intros svc1 svc2 Hco Hsync. rewrite Hco. simpl. by rewrite Hsync.
  - intros response s' Hout Hstatus.
    destruct co as [[[]|e] svc1] eqn:Hco; simpl in *.
    + destruct (GitService.synchronize_project
                  (_git request project_id (Some repository_id)) true svc1)
        as [[[]|e] svc2] eqn:Hsync; simpl in *.
      * exists svc1. inversion Hout; subst. by simpl.
      * exfalso. revert Hout Hstatus. clear.
        destruct e; simpl; intros Hout; inversion Hout; subst; done.
    + exfalso. revert Hout Hstatus. clear.
      destruct e; simpl; intros Hout; inversion Hout; subst; done.
  - intros svc' [Hco | (svc1 & Hco & Hsync)]; rewrite Hco; simpl;
      [|rewrite Hsync; simpl]; by eexists _, _, _.
  - intros svc' [Hco | (svc1 & Hco & Hsync)]; rewrite Hco; simpl;
      [|rewrite Hsync; simpl]; by eexists _, _, _.
Qed.

End WithService.

(** *** Closed instances *)

(** C4 as stated fails: a repository whose creation is refused with
    [GitHTTPSCredentialsError] is answered with 422, not with 403. *)
Lemma https_rejection_on_create_is_not_403 :
  ~ (forall (Svc : Type) (git : GitService.methods Svc) (utils : CommonUtils)
            request project_id repository_id (s : api_state Svc) e svc',
       issubclass e CredentialsError = true ->
       let expected : Z :=
         if bool_decide (e = GitHTTPSCredentialsError) then 403%Z else 422%Z in
       (GitService.save_repository (_git request project_id None)
          (request_json request) (service s) = (Raise e, svc') ->
        exists response s',
          add_repository request project_id s = (Ok response, s')
          /\ status response = expected)
       /\ (GitService.update_repository
             (_git request project_id (Some repository_id))
             (request_json request) (service s) = (Raise e, svc') ->
           exists response s',
             update_repository request project_id repository_id s
             = (Ok response, s')
             /\ status response = expected)).
Proof.
  intros Hclaim.
  destruct (Hclaim unit (Samples.failing_service GitHTTPSCredentialsError)
              Samples.sample_utils Samples.sample_request "default" 1%Z
              Samples.fresh GitHTTPSCredentialsError tt eq_refl)
    as [Hadd _].
  destruct (Hadd eq_refl) as (response & s' & Hrun & Hstatus).
  vm_compute in Hrun. inversion Hrun; subst response.
  vm_compute in Hstatus. discriminate Hstatus.
Qed.

Lemma credential_rejection_responses_https :
  let git := Samples.failing_service GitHTTPSCredentialsError in
  issubclass GitHTTPSCredentialsError CredentialsError = true
  /\ (exists response s',
        add_repository (git := git) Samples.sample_request "default"
          Samples.fresh = (Ok response, s')
        /\ status response = 422%Z)
  /\ (exists response s',
        update_repository (git := git) Samples.sample_request "default" 1
          Samples.fresh = (Ok response, s')
        /\ status response = 403%Z).
Proof.
  intros git.
  pose proof (credential_rejection_responses (git := git)
                Samples.sample_request "default" 1%Z Samples.fresh)
    as [Hadd Hupdate].
  split; [reflexivity|]. split.
  - destruct (Hadd GitHTTPSCredentialsError tt eq_refl eq_refl)
      as (response & s' & Hrun & Hstatus & _).
    by exists response, s'.
  - destruct (Hupdate tt eq_refl) as (response & s' & Hrun & Hstatus & _).
    by exists response, s'.
Defined.

Lemma create_commit_responses_protected :
  let git := Samples.failing_service GitCommitError in
  GitService.commit_and_push_changes_to (methods := git)
    (_git Samples.sample_request "default" (Some 1%Z)) "main" tt
  = (Raise GitCommitError, tt)
  /\ exists response s',
       create_commit (git := git) 100 Samples.sample_request "default" 1
         "main" Samples.fresh = (Ok response, s')
       /\ status response = 403%Z.
Proof.
  intros git. split; [reflexivity|].
  destruct (create_commit_responses (git := git)
              100%Z Samples.sample_request "default" 1%Z "main" Samples.fresh)
    as (_ & Hprotected & _).
  destruct (Hprotected tt eq_refl)
    as (response & s' & message & Hrun & Hstatus & _).
  by exists response, s'.
Defined.

Lemma checkout_branch_responses_checked_out :
  let working := Samples.working_service in
  let missing := Samples.failing_service ValueError in
  let force :=
    bool_arg (CommonUtils := Samples.sample_utils) Samples.sample_request
      "force" false in
  GitService.checkout_branch (methods := working)
    (_git Samples.sample_request "default" (Some 1%Z)) "feature" force false tt
  = (Ok tt, tt)
  /\ GitService.synchronize_project (methods := working)
       (_git Samples.sample_request "default" (Some 1%Z)) true tt
     = (Ok tt, tt)
  /\ checkout_branch (git := working) (utils := Samples.sample_utils)
       Samples.sample_request "default" 1 "feature" Samples.fresh
     = (Ok {| status := 204; content := text_body "" |}, Samples.fresh)
  /\ GitService.checkout_branch (methods := missing)
       (_git Samples.sample_request "default" (Some 1%Z)) "feature" force
       false tt
     = (Raise ValueError, tt)
  /\ exists response s',
       checkout_branch (git := missing) (utils := Samples.sample_utils)
         Samples.sample_request "default" 1 "feature" Samples.fresh
       = (Ok response, s')
       /\ status response = 404%Z.
Proof.
  intros working missing force.
  split; [reflexivity|]. split; [reflexivity|]. split.
  - exact (proj1 (checkout_branch_responses (git := working)
                    (utils := Samples.sample_utils)
                    Samples.sample_request "default" 1%Z "feature"
                    Samples.fresh)
             tt tt eq_refl eq_refl).
  - split; [reflexivity|].
    destruct (checkout_branch_responses (git := missing)
                (utils := Samples.sample_utils)
                Samples.sample_request "default" 1%Z "feature" Samples.fresh)
      as (_ & _ & _ & Hmissing).
    destruct (Hmissing tt (or_introl eq_refl))
      as (response & s' & message & Hrun & Hstatus & _).
    by exists response, s'.
Defined.

End GitFacts.

(** ** More on the scheduler *)

Module SchedulerExtras.
Import Scheduler JobTable SchedulerFacts.

Implicit Types (d new : dict) (key : string) (current updated : pyval)
  (f : merge_frame) (s : scheduler_state) (job : Job).

(** *** Dictionaries *)

Lemma dict_remove_absent key d : dict_get key d = None -> dict_remove key d = d.
Proof.
  induction d as [|[k w] d IH]; simpl; [done|].
  case_bool_decide; [done|]. intros Hd. by rewrite IH.
Qed.

Lemma dict_remove_set_absent key v d :
  dict_get key d = None -> dict_remove key (dict_set key v d) = d.
Proof.
  induction d as [|[k w] d IH]; simpl.
  - by rewrite bool_decide_eq_true_2.
  - case_bool_decide as E; [done|]. intros Hd. simpl.
    rewrite bool_decide_eq_false_2 by done. by rewrite IH.
Qed.

Lemma dict_set_absent key v d :
  dict_get key d = None -> dict_set key v d = (d ++ [(key, v)])%list.
Proof.
  induction d as [|[k w] d IH]; simpl; [done|].
  case_bool_decide; [done|]. intros Hd. by rewrite IH.
Qed.

Lemma dict_get_app_None key d e :
  dict_get key (d ++ e)%list = None
  <-> dict_get key d = None /\ dict_get key e = None.
Proof.
  induction d as [|[k w] d IH]; simpl; [tauto|].
  case_bool_decide; [|exact IH].
  split; [discriminate | intros [? _]; discriminate].
Qed.

Lemma is_Some_dict_get_set key k v d :
  is_Some (dict_get k (dict_set key v d))
  <-> k = key \/ is_Some (dict_get k d).
Proof.
  destruct (decide (key = k)) as [->|Hne].
  - rewrite dict_get_set_eq. split; [by left | by eexists].
  - rewrite dict_get_set_ne by done.
    split; [by right | intros [->|?]; done].
Qed.

(** *** The merge keeps and adds keys, and drops none *)

Lemma merge_loop_keys new f f' k :
  merge_loop new f = (Ok tt, f') ->
  is_Some (dict_get k (merged_job_modification f'))
  <-> is_Some (dict_get k (merged_job_modification f))
      \/ is_Some (dict_get k new).
Proof.
  revert f. induction new as [|[key u] new IH]; intros f Hrun.
  - inversion Hrun; subst. simpl. split; [by left | intros [?|[? ?]]; done].
  - rewrite merge_loop_cons, merge_item_eq in Hrun. cbv zeta in Hrun.
    simpl dict_get at 3.
    assert (Hhead : is_Some (if bool_decide (key = k) then Some u
                             else dict_get k new)
                    <-> k = key \/ is_Some (dict_get k new)).
    { case_bool_decide as E.
      - split; [intros _; by left | intros _; by eexists].
      - split; [by right | intros [?|?]; [congruence | done]]. }
    rewrite Hhead.
    destruct (type_mismatch _ _) eqn:Hguard.
    + rewrite (IH _ Hrun). simpl. split; [tauto|].
      intros [?|[->|?]]; [tauto | | tauto]. left.
      apply type_mismatch_true in Hguard as (Hc & _ & _).
      unfold dict_get_or_none in Hc.
      destruct (dict_get key (merged_job_modification f)); [by eexists|done].
    + destruct (_merge_single_job_kwarg _ _) as [m|]; [|done].
      rewrite (IH _ Hrun). simpl. rewrite is_Some_dict_get_set. tauto.
Qed.

(** X1.  The keys of a completed merge are the keys of the current [kwargs]
    together with the keys of the update: the merge drops no key. *)
Theorem merge_keeps_every_key job new s merged s' k :
  _get_merged_job_kwargs job new s = (Ok merged, s') ->
  is_Some (dict_get k merged)
  <-> is_Some (dict_get k (kwargs job)) \/ is_Some (dict_get k new).
Proof.
  intros Hrun.
  apply _get_merged_job_kwargs_Ok in Hrun as (f & Hloop & -> & _).
  by rewrite (merge_loop_keys _ _ _ _ Hloop).
Qed.

Lemma merge_keeps_every_key_files :
  exists s',
    _get_merged_job_kwargs (Samples.dump_job [("files", PSet {["a"]})])
      [("domain", PBool true)] (Samples.pending [("files", PSet {["a"]})])
    = (Ok [("files", PSet {["a"]}); ("domain", PBool true)], s')
    /\ is_Some (dict_get "files"
                  [("files", PSet {["a"]}); ("domain", PBool true)]).
Proof.
  eexists. split; [vm_compute; reflexivity|].
  apply (merge_keeps_every_key
           (Samples.dump_job [("files", PSet {["a"]})])
           [("domain", PBool true)]
           (Samples.pending [("files", PSet {["a"]})]) _ _ "files" eq_refl).
  left. by eexists.
Defined.

(** X2.  In a completed merge, a key the job does not have yet takes the value
    of the update as it is, whatever its type, and an update of [None]
    leaves the value the job has. *)
Theorem new_key_taken_and_None_ignored job new s merged s' key updated :
  dict_wf new ->
  dict_get key new = Some updated ->
  _get_merged_job_kwargs job new s = (Ok merged, s') ->
  (dict_get key (kwargs job) = None -> dict_get key merged = Some updated)
  /\ (forall current,
        dict_get key (kwargs job) = Some current ->
        updated = PNone ->
        dict_get key merged = Some current).
Proof.
  intros Hwf Hu Hrun.
  apply _get_merged_job_kwargs_Ok in Hrun as (f & Hloop & -> & _).
  pose proof (merge_loop_key _ _ _ _ _ Hwf Hu Hloop) as Hspec.
  cbv zeta in Hspec. unfold dict_get_or_none in Hspec. simpl in Hspec.
  split.
  - intros Hnone. rewrite Hnone in Hspec. simpl in Hspec.
    destruct Hspec as (m & Hm & ->). by inversion Hm.
  - intros current Hc ->. rewrite Hc in Hspec. simpl in Hspec.
    unfold type_mismatch in Hspec. simpl in Hspec.
    rewrite andb_false_r in Hspec. simpl in Hspec.
    destruct Hspec as (m & Hm & ->).
    destruct current; by inversion Hm.
Qed.

Lemma new_key_taken_and_None_ignored_domain :
  let new := [("domain", PBool true); ("files", PNone)] in
  dict_wf new
  /\ dict_get "domain" new = Some (PBool true)
  /\ exists s',
       _get_merged_job_kwargs (Samples.dump_job [("files", PSet {["a"]})])
         new (Samples.pending [("files", PSet {["a"]})])
       = (Ok [("files", PSet {["a"]}); ("domain", PBool true)], s')
       /\ dict_get "domain" [("files", PSet {["a"]}); ("domain", PBool true)]
          = Some (PBool true).
Proof.
  intros new.
  assert (Hwf : dict_wf new).
  { apply NoDup_cons. split; [|apply NoDup_singleton].
    intros Hin. apply list_elem_of_singleton in Hin. discriminate Hin. }
  split; [exact Hwf|]. split; [reflexivity|].
  eexists. split; [vm_compute; reflexivity|].
  exact (proj1 (new_key_taken_and_None_ignored
                  (Samples.dump_job [("files", PSet {["a"]})]) new
                  (Samples.pending [("files", PSet {["a"]})]) _ _
                  "domain" (PBool true) Hwf eq_refl eq_refl) eq_refl).
Defined.

(** *** Updates that only bring new keys *)

Lemma merge_loop_fresh_keys new d (l : list Log.record) :
  dict_wf new ->
  (forall k, is_Some (dict_get k new) -> dict_get k d = None) ->
  merge_loop new {| merged_job_modification := d; frame_log := l |}
  = (Ok tt, {| merged_job_modification := (d ++ new)%list; frame_log := l |}).
Proof.
  revert d. induction new as [|[key u] new IH]; intros d Hwf Hfresh.
  - simpl. by rewrite app_nil_r.
  - apply NoDup_cons in Hwf as [Hnotin Hwf].
    apply dict_get_None_notin in Hnotin. simpl in Hnotin.
    assert (Hkey : dict_get key d = None).
    { apply Hfresh. simpl. rewrite bool_decide_eq_true_2 by done.
      by eexists. }
    rewrite merge_loop_cons, merge_item_eq. cbv zeta.
    unfold dict_get_or_none. simpl. rewrite Hkey. simpl.
    rewrite dict_set_absent by done.
    rewrite IH; [by rewrite <- app_assoc | done |].
    intros k Hk. apply dict_get_app_None. split.
    + apply Hfresh. simpl. case_bool_decide; [by eexists | done].
    + simpl. case_bool_decide as E; [|done].
      subst k. rewrite Hnotin in Hk. by destruct Hk.
Qed.

(** X3.  An update none of whose keys the job has is appended to the [kwargs]
    as it is, in its order: the merge does not raise and logs nothing.  For
    a job without [kwargs] the merged [kwargs] are the update itself. *)
Theorem fresh_keys_are_appended job new s :
  dict_wf new ->
  (forall k, is_Some (dict_get k new) -> dict_get k (kwargs job) = None) ->
  exists s',
    _get_merged_job_kwargs job new s = (Ok (kwargs job ++ new)%list, s')
    /\ log s' = log s
    /\ (kwargs job = [] -> s' = s).
Proof.
  intros Hwf Hfresh. rewrite _get_merged_job_kwargs_eq.
  rewrite merge_loop_fresh_keys by done. cbv zeta.
  eexists. split; [done|]. split; [done|].
  intros Hnil. rewrite Hnil. simpl. by destruct s.
Qed.

Lemma fresh_keys_are_appended_domain :
  let new := [("domain", PBool true)] in
  dict_wf new
  /\ (forall k,
        is_Some (dict_get k new) ->
        dict_get k (kwargs (Samples.dump_job [("files", PSet {["a"]})]))
        = None)
  /\ exists s',
       _get_merged_job_kwargs (Samples.dump_job [("files", PSet {["a"]})])
         new (Samples.pending [("files", PSet {["a"]})])
       = (Ok [("files", PSet {["a"]}); ("domain", PBool true)], s').
Proof.
  intros new.
  assert (Hwf : dict_wf new) by apply NoDup_singleton.
  assert (Hfresh : forall k,
    is_Some (dict_get k new) ->
    dict_get k (kwargs (Samples.dump_job [("files", PSet {["a"]})])) = None).
  { intros k Hk. unfold new in Hk. simpl in Hk.
    destruct (decide ("domain" = k)) as [<-|Hne]; [reflexivity|].
    rewrite bool_decide_eq_false_2 in Hk by done. by destruct Hk. }
  split; [exact Hwf|]. split; [exact Hfresh|].
  destruct (fresh_keys_are_appended
              (Samples.dump_job [("files", PSet {["a"]})]) new
              (Samples.pending [("files", PSet {["a"]})]) Hwf Hfresh)
    as (s' & Hrun & _).
  by exists s'.
Defined.

(** *** Merging one update after another *)

Lemma merged_kwargs_Ok d new merged :
  merged_kwargs d new = Ok merged ->
  exists f,
    merge_loop new {| merged_job_modification := d; frame_log := [] |}
    = (Ok tt, f)
    /\ merged = merged_job_modification f.
Proof.
  unfold merged_kwargs.
  destruct (merge_loop _ _) as [[[]|e] f]; intros Hm; inversion Hm.
  by exists f.
Qed.

Lemma merged_kwargs_same_type d new merged key current updated :
  dict_wf new ->
  merged_kwargs d new = Ok merged ->
  dict_get key d = Some current ->
  dict_get key new = Some updated ->
  type current = type updated ->
  exists m, _merge_single_job_kwarg current updated = Ok m
            /\ dict_get key merged = Some m.
Proof.
  intros Hwf Hm Hc Hu Hty.
  apply merged_kwargs_Ok in Hm as (f & Hloop & ->).
  pose proof (merge_loop_key _ _ _ _ _ Hwf Hu Hloop) as Hspec.
  cbv zeta in Hspec. unfold dict_get_or_none in Hspec. simpl in Hspec.
  rewrite Hc in Hspec. simpl in Hspec.
  by rewrite (type_mismatch_same_type _ _ Hty) in Hspec.
Qed.

(** X4.  Two updates merged one after the other accumulate.  For a set-valued
    key the result is the union of the current set and both updating sets,
    so sending a set update a second time changes nothing; for a list-valued
    key the updating lists follow the current list in the order of the
    updates, so a repeated list update is appended again. *)
Theorem successive_updates_accumulate d new1 new2 merged1 merged2 key :
  dict_wf new1 ->
  dict_wf new2 ->
  merged_kwargs d new1 = Ok merged1 ->
  merged_kwargs merged1 new2 = Ok merged2 ->
  (forall c u1 u2 : gset string,
     dict_get key d = Some (PSet c) ->
     dict_get key new1 = Some (PSet u1) ->
     dict_get key new2 = Some (PSet u2) ->
     dict_get key merged2 = Some (PSet (c ∪ u1 ∪ u2))
     /\ (u1 = u2 -> dict_get key merged2 = dict_get key merged1))
  /\ (forall c u1 u2 : list pyval,
        dict_get key d = Some (PList c) ->
        dict_get key new1 = Some (PList u1) ->
        dict_get key new2 = Some (PList u2) ->
        dict_get key merged2 = Some (PList (c ++ u1 ++ u2))).
Proof.
  intros Hwf1 Hwf2 Hm1 Hm2. split.
  - intros c u1 u2 Hc Hu1 Hu2.
    destruct (merged_kwargs_same_type _ _ _ _ _ _ Hwf1 Hm1 Hc Hu1 eq_refl)
      as (m1 & Hs1 & Hk1).
    inversion Hs1; subst m1.
    destruct (merged_kwargs_same_type _ _ _ _ _ _ Hwf2 Hm2 Hk1 Hu2 eq_refl)
      as (m2 & Hs2 & Hk2).
    inversion Hs2; subst m2. split; [done|].
    intros <-. rewrite Hk1, Hk2. do 2 f_equal.
    rewrite <- (assoc_L (∪)). by rewrite (idemp_L (∪)).
  - intros c u1 u2 Hc Hu1 Hu2.
    destruct (merged_kwargs_same_type _ _ _ _ _ _ Hwf1 Hm1 Hc Hu1 eq_refl)
      as (m1 & Hs1 & Hk1).
    inversion Hs1; subst m1.
    destruct (merged_kwargs_same_type _ _ _ _ _ _ Hwf2 Hm2 Hk1 Hu2 eq_refl)
      as (m2 & Hs2 & Hk2).
    inversion Hs2; subst m2. rewrite Hk2. by rewrite <- app_assoc.
Qed.

Lemma successive_updates_accumulate_files :
  let new1 := [("files", PSet {["b"]})] in
  let new2 := [("files", PSet {["c"]})] in
  dict_wf new1 /\ dict_wf new2
  /\ merged_kwargs [("files", PSet {["a"]})] new1
     = Ok [("files", PSet {["a"; "b"]})]
  /\ merged_kwargs [("files", PSet {["a"; "b"]})] new2
     = Ok [("files", PSet {["a"; "b"; "c"]})]
  /\ dict_get "files" [("files", PSet {["a"; "b"; "c"]})]
     = Some (PSet ({["a"]} ∪ {["b"]} ∪ {["c"]})).
Proof.
  intros new1 new2.
  assert (Hwf1 : dict_wf new1) by apply NoDup_singleton.
  assert (Hwf2 : dict_wf new2) by apply NoDup_singleton.
  split; [exact Hwf1|]. split; [exact Hwf2|].
  split; [reflexivity|]. split; [reflexivity|].
  exact (proj1 (proj1 (successive_updates_accumulate
                         [("files", PSet {["a"]})] new1 new2
                         [("files", PSet {["a"; "b"]})]
                         [("files", PSet {["a"; "b"; "c"]})] "files"
                         Hwf1 Hwf2 eq_refl eq_refl)
                  {["a"]} {["b"]} {["c"]} eq_refl eq_refl eq_refl)).
Defined.

(** *** What the merge does to the job table *)

Lemma _get_merged_job_kwargs_lookup_ne job new s k :
  k ≠ id job ->
  jobs (_get_merged_job_kwargs job new s).2 !! k = jobs s !! k.
Proof.
  intros Hne. rewrite _get_merged_job_kwargs_eq.
  destruct (merge_loop new _) as [r f]. cbn [snd jobs].
  destruct (truthy (PDict (kwargs job))); [|done].
  by apply lookup_alter_ne.
Qed.

Lemma _get_merged_job_kwargs_lookup job new s j :
  jobs s !! id job = Some j ->
  exists j',
    jobs (_get_merged_job_kwargs job new s).2 !! id job = Some j'
    /\ id j' = id j /\ func j' = func j
    /\ job_trigger j' = job_trigger j
    /\ next_run_time j' = next_run_time j.
Proof.
  intros Hj. rewrite _get_merged_job_kwargs_eq.
  destruct (merge_loop new _) as [r f]. cbn [snd jobs].
  destruct (truthy (PDict (kwargs job))); [|by exists j].
  rewrite lookup_alter_eq, Hj. simpl. by eexists.
Qed.

Lemma _get_merged_job_kwargs_wf job new s :
  jobs_wf s -> jobs_wf (_get_merged_job_kwargs job new s).2.
Proof.
  intros Hwf k j'. destruct (decide (k = id job)) as [->|Hne].
  - destruct (jobs s !! id job) as [j|] eqn:Hj.
    + destruct (_get_merged_job_kwargs_lookup job new s j Hj)
        as (j0 & -> & Hid & _).
      intros [= <-]. rewrite Hid. by apply Hwf.
    + rewrite _get_merged_job_kwargs_eq.
      destruct (merge_loop new _) as [r f]. cbn [snd jobs].
      destruct (truthy (PDict (kwargs job))); [|by rewrite Hj].
      by rewrite lookup_alter_eq, Hj.
  - rewrite _get_merged_job_kwargs_lookup_ne by done. apply Hwf.
Qed.

Section WithConfig.
Context {config : Config}.

(** *** Items without a usable job id *)

(** X5.  An item without a [job_id] entry raises [KeyError] and leaves the
    scheduler as it was. *)
Theorem item_without_job_id_raises_KeyError now job_information s :
  dict_get JOB_ID_KEY job_information = None ->
  _handle_next_queue_item now job_information s = (Raise KeyError, s).
Proof.
  intros Hid. unfold _handle_next_queue_item, dict_pop. by rewrite Hid.
Qed.

Lemma _handle_next_queue_item_other_id now job_information s v :
  dict_get JOB_ID_KEY job_information = Some v ->
  (forall k, v ≠ PStr k) ->
  hashable v = true ->
  _handle_next_queue_item now job_information s
  = (Ok tt,
     {| jobs := jobs s;
        log := log s ++ [(Log.WARNING, Log.Job_not_found v)] |}).
Proof.
  intros Hid Hv Hhash.
  unfold _handle_next_queue_item, dict_pop, dict_pop_default.
  rewrite Hid. cbv zeta.
  unfold mbind at 1, M_bind at 1, lift at 1.
  unfold mbind at 1, M_bind at 1, get_job at 1.
  unfold mbind at 1, M_bind at 1, get_state at 1.
  rewrite Hhash. unfold mret at 1, M_ret at 1.
  destruct v; try discriminate Hhash; try (simpl; by rewrite andb_false_r).
  by destruct (Hv s0).
Qed.

Lemma _handle_next_queue_item_unhashable_id now job_information s v :
  dict_get JOB_ID_KEY job_information = Some v ->
  hashable v = false ->
  _handle_next_queue_item now job_information s = (Raise TypeError, s).
Proof.
  intros Hid Hhash.
  unfold _handle_next_queue_item, dict_pop, dict_pop_default.
  rewrite Hid. cbv zeta.
  unfold mbind at 1, M_bind at 1, lift at 1.
  unfold mbind at 1, M_bind at 1, get_job at 1.
  unfold mbind at 1, M_bind at 1, get_state at 1.
  by rewrite Hhash.
Qed.

(** *** Cancelling and unknown ids *)

(** X6.  A truthy [cancel] entry wins over everything else in the item: the
    scheduled job is removed, the other entries of the item are ignored, and
    nothing is logged. *)
Theorem cancel_wins_over_modification now job_information s k job :
  dict_get JOB_ID_KEY job_information = Some (PStr k) ->
  jobs s !! k = Some job ->
  truthy (default (PBool false)
            (dict_get CANCEL_JOB_KEY
               (dict_remove JOB_ID_KEY job_information))) = true ->
  _handle_next_queue_item now job_information s
  = (Ok tt, {| jobs := delete k (jobs s); log := log s |}).
Proof.
  intros Hid Hjob Hcancel.
  rewrite (_handle_next_queue_item_eq now _ s k Hid). cbv zeta.
  by rewrite Hjob, Hcancel.
Qed.

(** X7.  An item for an id that is not scheduled and is not the id of the dump
    job changes no job, whatever else it carries; one warning is logged. *)
Theorem unscheduled_job_is_only_logged now job_information s k :
  dict_get JOB_ID_KEY job_information = Some (PStr k) ->
  jobs s !! k = None ->
  k ≠ BACKGROUND_DUMPING_JOB_ID ->
  _handle_next_queue_item now job_information s
  = (Ok tt,
     {| jobs := jobs s;
        log := log s ++ [(Log.WARNING, Log.Job_not_found (PStr k))] |}).
Proof.
  intros Hid Hjob Hne.
  rewrite (_handle_next_queue_item_eq now _ s k Hid). cbv zeta.
  rewrite Hjob. by rewrite bool_decide_eq_false_2.
Qed.

(** *** A failed merge *)

(** X8.  When the merge raises, [_modify_job] raises the same exception and
    [Job.modify] is not reached: the stored job keeps its function, its
    trigger and its next run time, also when [run_immediately] was asked
    for. *)
Theorem failed_merge_does_not_reschedule now job job_modification s e :
  jobs s !! id job = Some job ->
  merged_kwargs (kwargs job) (dict_remove "run_immediately" job_modification)
  = Raise e ->
  exists s' job',
    _modify_job now job job_modification s = (Raise e, s')
    /\ jobs s' !! id job = Some job'
    /\ func job' = func job
    /\ job_trigger job' = job_trigger job
    /\ next_run_time job' = next_run_time job.
Proof.
  intros Hjob Hraise. rewrite _modify_job_eq. cbv zeta.
  set (s0 := if truthy _ then _ else s).
  assert (Hjob0 : jobs s0 !! id job = Some job).
  { subst s0.
    by destruct (truthy (default (PBool false)
                           (dict_get "run_immediately" job_modification))). }
  pose proof (_get_merged_job_kwargs_result job
                (dict_remove "run_immediately" job_modification) s0) as Hres.
  destruct (_get_merged_job_kwargs_lookup job
              (dict_remove "run_immediately" job_modification) s0 job Hjob0)
    as (job' & Hjob' & _ & Hfunc & Htrigger & Hnext).
  destruct (_get_merged_job_kwargs job _ s0) as [[merged|e'] s1];
    simpl in Hres, Hjob'; rewrite Hraise in Hres; [done|].
  inversion Hres; subst e'. by exists s1, job'.
Qed.

End WithConfig.

Lemma cancel_wins_over_modification_kwargs :
  let job_information :=
    modify_job "background_dumping_job"
      [("cancel", PBool true); ("files", PSet {["b"]})] in
  dict_get JOB_ID_KEY job_information = Some (PStr "background_dumping_job")
  /\ _handle_next_queue_item (config := Samples.sample_config) 100
       job_information (Samples.pending [("files", PSet {["a"]})])
     = (Ok tt, Samples.idle).
Proof.
  intros job_information. split; [reflexivity|].
  exact (cancel_wins_over_modification (config := Samples.sample_config)
           100 job_information (Samples.pending [("files", PSet {["a"]})])
           "background_dumping_job"
           (Samples.dump_job [("files", PSet {["a"]})])
           eq_refl eq_refl eq_refl).
Defined.

Lemma item_without_job_id_raises_KeyError_files :
  dict_get JOB_ID_KEY [("files", PSet {["a"]})] = None
  /\ _handle_next_queue_item (config := Samples.sample_config) 100
       [("files", PSet {["a"]})] Samples.idle
     = (Raise KeyError, Samples.idle).
Proof.
  split; [reflexivity|].
  exact (item_without_job_id_raises_KeyError
           (config := Samples.sample_config) 100 [("files", PSet {["a"]})]
           Samples.idle eq_refl).
Defined.

Lemma unscheduled_job_is_only_logged_git :
  dict_get JOB_ID_KEY
    (modify_job "git-synchronization" [("run_immediately", PBool true)])
  = Some (PStr "git-synchronization")
  /\ jobs Samples.idle !! "git-synchronization" = None
  /\ _handle_next_queue_item (config := Samples.sample_config) 100
       (modify_job "git-synchronization" [("run_immediately", PBool true)])
       Samples.idle
     = (Ok tt,
        {| jobs := ∅;
           log := [(Log.WARNING,
                    Log.Job_not_found (PStr "git-synchronization"))] |}).
Proof.
  split; [reflexivity|]. split; [reflexivity|].
  exact (unscheduled_job_is_only_logged (config := Samples.sample_config)
           100
           (modify_job "git-synchronization" [("run_immediately", PBool true)])
           Samples.idle "git-synchronization" eq_refl eq_refl
           ltac:(discriminate)).
Defined.

Lemma failed_merge_does_not_reschedule_empty_set :
  let job := Samples.dump_job [("files", PSet ∅)] in
  let job_modification :=
    [("run_immediately", PBool true); ("files", PList [PStr "a"])] in
  jobs (Samples.pending [("files", PSet ∅)]) !! id job = Some job
  /\ merged_kwargs (kwargs job)
       (dict_remove "run_immediately" job_modification) = Raise TypeError
  /\ exists s' job',
       _modify_job 100 job job_modification
         (Samples.pending [("files", PSet ∅)]) = (Raise TypeError, s')
       /\ jobs s' !! id job = Some job'
       /\ next_run_time job' = Some 160%Z.
Proof.
  intros job job_modification.
  split; [reflexivity|]. split; [reflexivity|].
  destruct (failed_merge_does_not_reschedule 100 job job_modification
              (Samples.pending [("files", PSet ∅)]) TypeError
              eq_refl eq_refl)
    as (s' & job' & Hrun & Hjob' & _ & _ & Hnext).
  by exists s', job'.
Defined.

(** *** Invariants of the loop *)

Section Invariants.
Context {config : Config}.

Lemma _modify_job_lookup_ne now job job_modification s k :
  k ≠ id job ->
  jobs (_modify_job now job job_modification s).2 !! k = jobs s !! k.
Proof.
  intros Hne. rewrite _modify_job_eq. cbv zeta.
  set (s0 := if truthy _ then _ else s).
  assert (Hjobs0 : jobs s0 = jobs s).
  { subst s0.
    by destruct (truthy (default (PBool false)
                           (dict_get "run_immediately" job_modification))). }
  pose proof (_get_merged_job_kwargs_lookup_ne job
                (dict_remove "run_immediately" job_modification) s0 k Hne)
    as Hother.
  destruct (_get_merged_job_kwargs job _ s0) as [[merged|e] s1];
    simpl in Hother |- *; rewrite <- Hjobs0, <- Hother; [|done].
  by apply lookup_insert_ne.
Qed.

Lemma _modify_job_wf now job job_modification s :
  jobs_wf s -> jobs_wf (_modify_job now job job_modification s).2.
Proof.
  intros Hwf. rewrite _modify_job_eq. cbv zeta.
  set (s0 := if truthy _ then _ else s).
  assert (Hwf0 : jobs_wf s0).
  { subst s0.
    by destruct (truthy (default (PBool false)
                           (dict_get "run_immediately" job_modification))). }
  pose proof (_get_merged_job_kwargs_wf job
                (dict_remove "run_immediately" job_modification) s0 Hwf0)
    as Hwf1.
  destruct (_get_merged_job_kwargs job _ s0) as [[merged|e] s1];
    simpl in Hwf1 |- *; [|done].
  intros k j. simpl. destruct (decide (k = id job)) as [->|Hne].
  - rewrite lookup_insert_eq. by intros [= <-].
  - rewrite lookup_insert_ne by done. apply Hwf1.
Qed.

(** X9.  Handling an item only ever touches the job its [job_id] names: in a
    table where every job is stored under its own id, the job under any
    other id is the same before and after, whether the item is handled or
    raises. *)
Theorem other_jobs_untouched now job_information s k' :
  jobs_wf s ->
  dict_get JOB_ID_KEY job_information ≠ Some (PStr k') ->
  jobs (_handle_next_queue_item now job_information s).2 !! k'
  = jobs s !! k'.
Proof.
  intros Hwf Hother.
  destruct (dict_get JOB_ID_KEY job_information) as [v|] eqn:Hid.
  - assert (Hcases : (exists k, v = PStr k) \/ (forall k, v ≠ PStr k)).
    { destruct v; try (right; intros k; discriminate). left. by eexists. }
    destruct Hcases as [[k ->] | Hv].
    + assert (Hne : k' ≠ k) by congruence.
      rewrite (_handle_next_queue_item_eq now _ s k Hid). cbv zeta.
      destruct (jobs s !! k) as [job|] eqn:Hjob.
      * destruct (truthy _).
        -- simpl. by apply lookup_delete_ne.
        -- apply _modify_job_lookup_ne. by rewrite (Hwf k job Hjob).
      * case_bool_decide as Hdump; [|done].
        rewrite _add_job_to_dump_files_eq by by rewrite <- Hdump.
        simpl. apply lookup_insert_ne. congruence.
    + destruct (hashable v) eqn:Hhash.
      * by rewrite (_handle_next_queue_item_other_id now _ s v Hid Hv Hhash).
      * by rewrite (_handle_next_queue_item_unhashable_id now _ s v Hid Hhash).
  - by rewrite item_without_job_id_raises_KeyError.
Qed.

(** *** The loop *)

Lemma consume_cons t item items s :
  consume ((t, item) :: items) s
  = match _handle_next_queue_item t item s with
    | (Ok _, s') => consume items s'
    | (Raise e, s') => (Raise e, s')
    end.
Proof. reflexivity. Qed.

(** X11.  The loop handles the items in their order and ends at the first one
    that raises: the items behind it are never handled, whatever they are. *)
Theorem loop_ends_at_first_exception before t item after s s1 s2 e :
  consume before s = (Ok tt, s1) ->
  _handle_next_queue_item t item s1 = (Raise e, s2) ->
  consume (before ++ (t, item) :: after)%list s = (Raise e, s2).
Proof.
  revert s. induction before as [|[t0 item0] before IH]; intros s Hbefore Hitem.
  - inversion Hbefore; subst s1. simpl app.
    by rewrite consume_cons, Hitem.
  - simpl app. rewrite consume_cons in Hbefore |- *.
    destruct (_handle_next_queue_item t0 item0 s) as [[[]|e0] s0]; [|done].
    by apply IH.
Qed.

(** *** From the client to the job *)

(** X12.  The entries a client passes to [modify_job] reach the job as they
    are.  When they hold no [cancel] entry, handling the item calls
    [_modify_job] with exactly these entries for a scheduled job, and for the
    dump job that is not scheduled yet they become its [kwargs]. *)
Theorem modify_job_kwargs_arrive now s k kw :
  dict_get JOB_ID_KEY kw = None ->
  dict_get CANCEL_JOB_KEY kw = None ->
  (forall job,
     jobs s !! k = Some job ->
     _handle_next_queue_item now (modify_job k kw) s
     = _modify_job now job kw s)
  /\ (jobs s !! k = None ->
      k = BACKGROUND_DUMPING_JOB_ID ->
      _handle_next_queue_item now (modify_job k kw) s
      = _add_job_to_dump_files now kw s).
Proof.
  intros Hid Hcancel.
  assert (Hitem : dict_get JOB_ID_KEY (modify_job k kw) = Some (PStr k)).
  { apply dict_get_set_eq. }
  assert (Hrest : dict_remove JOB_ID_KEY (modify_job k kw) = kw).
  { by apply dict_remove_set_absent. }
  rewrite (_handle_next_queue_item_eq now _ s k Hitem). cbv zeta.
  rewrite Hrest, Hcancel, (dict_remove_absent _ _ Hcancel). simpl.
  split.
  - by intros job ->.
  - intros -> ->. by rewrite bool_decide_eq_true_2.
Qed.

(** X13.  [run_job_immediately] for the dump job while none is scheduled does
    not run it at once: the job is created to run after
    [MAX_DUMPING_DELAY_IN_SECONDS] like any other, and [run_immediately]
    stays among its [kwargs]. *)
Theorem run_immediately_without_dump_job_waits now s kw :
  dict_get JOB_ID_KEY kw = None ->
  dict_get CANCEL_JOB_KEY kw = None ->
  dict_get "run_immediately" kw = None ->
  jobs s !! BACKGROUND_DUMPING_JOB_ID = None ->
  exists job_information,
    run_job_immediately BACKGROUND_DUMPING_JOB_ID kw = Ok job_information
    /\ _handle_next_queue_item now job_information s
       = (Ok tt,
          {| jobs :=
               <[BACKGROUND_DUMPING_JOB_ID :=
                   {| id := BACKGROUND_DUMPING_JOB_ID;
                      func := DumpService_dump_changes;
                      job_trigger :=
                        date (now + MAX_DUMPING_DELAY_IN_SECONDS);
                      next_run_time :=
                        Some (now + MAX_DUMPING_DELAY_IN_SECONDS)%Z;
                      kwargs := ("run_immediately", PBool true) :: kw |}]>
                 (jobs s);
             log := log s ++ [(Log.DEBUG, Log.Created_dump_job)] |}).
Proof.
  intros Hid Hcancel Hrun Hjob.
  unfold run_job_immediately. rewrite Hid, Hrun. eexists. split; [done|].
  destruct (modify_job_kwargs_arrive now s BACKGROUND_DUMPING_JOB_ID
              (("run_immediately", PBool true) :: kw)) as [_ Hadd];
    [done | done |].
  rewrite Hadd by done. by apply _add_job_to_dump_files_eq.
Qed.

(** X14.  A [modify_job] without entries changes no job: the scheduled job
    keeps its [kwargs], its trigger and its next run time; only the log
    grows. *)
Theorem modify_without_kwargs_changes_no_job now s k job :
  jobs s !! k = Some job ->
  id job = k ->
  _handle_next_queue_item now (modify_job k []) s
  = (Ok tt,
     {| jobs := jobs s;
        log := log s ++ [(Log.DEBUG, Log.Modifying_job k)] |}).
Proof.
  intros Hjob Hid.
  destruct (modify_job_kwargs_arrive now s k []) as [Hmod _]; [done..|].
  rewrite (Hmod job Hjob), _modify_job_eq. cbv zeta. simpl.
  destruct job as [i fn tr nx kw]. simpl in *. subst i.
  do 2 f_equal.
  apply map_eq. intros k0. destruct (decide (k0 = k)) as [->|Hne].
  - rewrite lookup_insert_eq, Hjob. by destruct kw.
  - rewrite lookup_insert_ne by done.
    destruct kw; simpl; [done|]. by rewrite lookup_alter_ne.
Qed.

End Invariants.

Lemma other_jobs_untouched_cancel :
  let s := {| jobs := {[ "background_dumping_job" := Samples.dump_job [];
                         "git" := {| id := "git";
                                     func := git_service_run_background_synchronization;
                                     job_trigger := cron;
                                     next_run_time := Some 100%Z;
                                     kwargs := [] |} ]};
              log := [] |} in
  jobs_wf s
  /\ dict_get JOB_ID_KEY (cancel_job "git") ≠ Some (PStr "background_dumping_job")
  /\ jobs (_handle_next_queue_item (config := Samples.sample_config) 100
             (cancel_job "git") s).2 !! "background_dumping_job"
     = Some (Samples.dump_job []).
Proof.
  intros s.
  assert (Hwf : jobs_wf s).
  { intros k j Hk. subst s. simpl in Hk.
    apply lookup_insert_Some in Hk as [[<- <-]|[_ Hk]]; [done|].
    apply lookup_singleton_Some in Hk as [<- <-]. done. }
  assert (Hne : dict_get JOB_ID_KEY (cancel_job "git")
                ≠ Some (PStr "background_dumping_job")) by discriminate.
  split; [exact Hwf|]. split; [exact Hne|].
  rewrite (other_jobs_untouched (config := Samples.sample_config) 100
             (cancel_job "git") s "background_dumping_job" Hwf Hne).
  reflexivity.
Defined.

Lemma loop_ends_at_first_exception_files :
  let first := (100%Z, modify_job "background_dumping_job"
                         [("files", PSet ∅)]) in
  let second := modify_job "background_dumping_job"
                  [("files", PList [PStr "a"])] in
  let third := (140%Z, cancel_job "background_dumping_job") in
  exists s1 s2,
    consume (config := Samples.sample_config) [first] Samples.idle
    = (Ok tt, s1)
    /\ _handle_next_queue_item (config := Samples.sample_config) 130 second s1
       = (Raise TypeError, s2)
    /\ consume (config := Samples.sample_config)
         [first; (130%Z, second); third] Samples.idle
       = (Raise TypeError, s2)
    /\ is_Some (jobs s2 !! "background_dumping_job").
Proof.
  intros first second third.
  eexists _, _.
  split; [vm_compute; reflexivity|].
  split; [vm_compute; reflexivity|].
  split.
  - refine (loop_ends_at_first_exception (config := Samples.sample_config)
              [first] 130%Z second [third] Samples.idle _ _ TypeError _ _);
      vm_compute; reflexivity.
  - vm_compute. by eexists.
Defined.

Lemma modify_job_kwargs_arrive_files :
  dict_get JOB_ID_KEY [("files", PSet {["a"]})] = None
  /\ dict_get CANCEL_JOB_KEY [("files", PSet {["a"]})] = None
  /\ _handle_next_queue_item (config := Samples.sample_config) 100
       (modify_job "background_dumping_job" [("files", PSet {["a"]})])
       Samples.idle
     = _add_job_to_dump_files (config := Samples.sample_config) 100
         [("files", PSet {["a"]})] Samples.idle.
Proof.
  split; [reflexivity|]. split; [reflexivity|].
  exact (proj2 (modify_job_kwargs_arrive (config := Samples.sample_config)
                  100 Samples.idle "background_dumping_job"
                  [("files", PSet {["a"]})] eq_refl eq_refl)
           eq_refl eq_refl).
Defined.

Lemma run_immediately_without_dump_job_waits_idle :
  dict_get "run_immediately" [("files", PSet {["a"]})] = None
  /\ jobs Samples.idle !! "background_dumping_job" = None
  /\ exists job_information s',
       run_job_immediately "background_dumping_job" [("files", PSet {["a"]})]
       = Ok job_information
       /\ _handle_next_queue_item (config := Samples.sample_config) 100
            job_information Samples.idle = (Ok tt, s')
       /\ (next_run_time <$> jobs s' !! "background_dumping_job")
          = Some (Some 160%Z).
Proof.
  split; [reflexivity|]. split; [reflexivity|].
  destruct (run_immediately_without_dump_job_waits
              (config := Samples.sample_config) 100 Samples.idle
              [("files", PSet {["a"]})] eq_refl eq_refl eq_refl eq_refl)
    as (job_information & Hitem & Hrun).
  eexists _, _. split; [exact Hitem|]. split; [exact Hrun|]. reflexivity.
Defined.

Lemma modify_without_kwargs_changes_no_job_pending :
  let s := Samples.pending [("files", PSet {["a"]})] in
  jobs s !! "background_dumping_job"
  = Some (Samples.dump_job [("files", PSet {["a"]})])
  /\ _handle_next_queue_item (config := Samples.sample_config) 100
       (modify_job "background_dumping_job" []) s
     = (Ok tt,
        {| jobs := jobs s;
           log := [(Log.DEBUG, Log.Modifying_job "background_dumping_job")] |}).
Proof.
  intros s. split; [reflexivity|].
  exact (modify_without_kwargs_changes_no_job
           (config := Samples.sample_config) 100 s "background_dumping_job"
           (Samples.dump_job [("files", PSet {["a"]})]) eq_refl eq_refl).
Defined.

End SchedulerExtras.

(** ** More on the Git endpoints *)

Module GitExtras.
Import GitBlueprint GitRepositoryBlueprint GitFacts.

(** *** The exception classes *)

(** X15.  [issubclass] orders the exception classes: every class is a subclass
    of itself and of [Exception], the relation is transitive and
    antisymmetric.  Among the five classes of [exceptions.py] the only proper
    subclass is [GitHTTPSCredentialsError], of [CredentialsError], and none
    of the five is a [ValueError]. *)
Theorem exception_classes_ordered :
  (forall e, issubclass e e = true /\ issubclass e Exception = true)
  /\ (forall e1 e2 e3,
        issubclass e1 e2 = true -> issubclass e2 e3 = true ->
        issubclass e1 e3 = true)
  /\ (forall e1 e2,
        issubclass e1 e2 = true -> issubclass e2 e1 = true -> e1 = e2)
  /\ (forall e cls,
        e ∈ [GitConcurrentOperationException; GitCommitError;
             CredentialsError; GitHTTPSCredentialsError;
             ProjectLayoutError] ->
        (issubclass e ValueError = false)
        /\ (cls ≠ Exception ->
            issubclass e cls = true
            <-> e = cls
                \/ (e = GitHTTPSCredentialsError /\ cls = CredentialsError))).
Proof.
  split; [|split; [|split]].
  - intros e. by destruct e.
  - intros e1 e2 e3. destruct e1, e2; try discriminate; destruct e3; done.
  - intros e1 e2. destruct e1, e2; try discriminate; done.
  - intros e cls He.
    repeat (apply elem_of_cons in He as [->|He]);
      [..| by apply elem_of_nil in He];
      (split; [reflexivity|]); intros Hcls;
      destruct cls; try done;
      (split; [try discriminate; auto | intros [?|[? ?]]; done]).
Qed.

Lemma exception_classes_ordered_https :
  GitHTTPSCredentialsError
  ∈ [GitConcurrentOperationException; GitCommitError; CredentialsError;
     GitHTTPSCredentialsError; ProjectLayoutError]
  /\ issubclass GitHTTPSCredentialsError CredentialsError = true
  /\ issubclass GitHTTPSCredentialsError ValueError = false.
Proof.
  assert (Hin : GitHTTPSCredentialsError
                ∈ [GitConcurrentOperationException; GitCommitError;
                   CredentialsError; GitHTTPSCredentialsError;
                   ProjectLayoutError]).
  { do 3 apply list_elem_of_further. apply list_elem_of_here. }
  split; [exact Hin|].
  destruct (proj2 (proj2 (proj2 exception_classes_ordered))
              GitHTTPSCredentialsError CredentialsError Hin)
    as [Hvalue Hsub].
  split; [|exact Hvalue].
  apply Hsub; [discriminate|]. by right.
Defined.

Section WithService.
Context {Svc : Type} {git : GitService.methods Svc} {utils : CommonUtils}
  {repositories : GitRepositoryService.methods Svc}.

Implicit Types (request : Request) (s : api_state Svc).

(** *** What an answer of [create_commit] tells *)

(** X16.  [create_commit] answers with 201, 404, 403 or 409 and nothing else,
    and the status tells the cause: 201 only when the commit was made, and
    then exactly one message went to the websocket service; 404 only for a
    [ValueError], 403 only for [GitCommitError], 409 only for
    [GitConcurrentOperationException], each without a message.  Any other
    exception leaves the handler as it was raised, without a message and
    without a log record. *)
Theorem create_commit_status_tells_cause
    now request project_id repository_id branch_name s :
  let commit_and_push :=
    GitService.commit_and_push_changes_to
      (_git request project_id (Some repository_id)) branch_name (service s) in
  let outcome :=
    create_commit now request project_id repository_id branch_name s in
  (forall response s',
     outcome = (Ok response, s') ->
     (status response = 201%Z
      /\ (exists commit, commit_and_push = (Ok commit, service s')
                          /\ content response = json_body commit)
      /\ exists message, websocket s' = (websocket s ++ [message])%list)
     \/ (websocket s' = websocket s
         /\ exists e,
              commit_and_push = (Raise e, service s')
              /\ ((status response = 404%Z /\ issubclass e ValueError = true)
                  \/ (status response = 403%Z /\ e = GitCommitError)
                  \/ (status response = 409%Z
                      /\ e = GitConcurrentOperationException))))
  /\ (forall e s',
        outcome = (Raise e, s') ->
        commit_and_push = (Raise e, service s')
        /\ websocket s' = websocket s /\ log s' = log s
        /\ issubclass e ValueError = false
        /\ e ≠ GitCommitError /\ e ≠ GitConcurrentOperationException).
Proof.
  intros commit_and_push outcome. subst commit_and_push outcome.
  unfold create_commit. run_handler.
  destruct (GitService.commit_and_push_changes_to _ _ _)
    as [[commit|e] svc']; simpl.
  - split; [|discriminate].
    intros response s' [= <- <-]. left. simpl.
    split; [done|]. split; [by exists commit | by eexists].
  - split.
    + intros response s' Hout. right.
      destruct e; simpl in Hout; inversion Hout; subst; simpl;
        (split; [done|]); eexists; (split; [done|]); auto.
    + intros e' s' Hout.
      destruct e; simpl in Hout; inversion Hout; subst; simpl; done.
Qed.

(** *** What an answer of [add_repository] tells *)

(** X17.  [add_repository] tells the websocket service [connected] exactly when
    it answers 201, that is when the repository was saved and the
    synchronization was triggered; every other answer is 409, 400 or 422 and
    sends no message.  The state of the service is the one the last call has
    left: what [save_repository] has done stays when triggering the
    synchronization fails. *)
Theorem add_repository_status_tells_cause request project_id s :
  let git_service := _git request project_id None in
  let save :=
    GitService.save_repository git_service (request_json request)
      (service s) in
  let trigger :=
    GitService.trigger_immediate_project_synchronization git_service in
  let outcome := add_repository request project_id s in
  let raises e svc' :=
    save = (Raise e, svc')
    \/ exists saved svc1, save = (Ok saved, svc1)
                          /\ trigger svc1 = (Raise e, svc') in
  (forall response s',
     outcome = (Ok response, s') ->
     (status response = 201%Z
      /\ (exists saved svc1, save = (Ok saved, svc1)
                             /\ trigger svc1 = (Ok tt, service s')
                             /\ content response = json_body saved)
      /\ websocket s'
         = (websocket s
            ++ [{| WebSocket.topic := WebSocket.IVC;
                   WebSocket.name := "connected";
                   WebSocket.data := None |}])%list)
     \/ (websocket s' = websocket s
         /\ exists e,
              raises e (service s')
              /\ ((status response = 409%Z /\ e = RasaLicenseException)
                  \/ (status response = 400%Z /\ e = ProjectLayoutError)
                  \/ (status response = 422%Z
                      /\ issubclass e CredentialsError = true))))
  /\ (forall e s',
        outcome = (Raise e, s') ->
        raises e (service s') /\ websocket s' = websocket s
        /\ issubclass e CredentialsError = false
        /\ e ≠ RasaLicenseException /\ e ≠ ProjectLayoutError).
Proof.
  cbv zeta. unfold add_repository. run_handler.
  destruct (GitService.save_repository _ _ _) as [[saved|e] svc1]; simpl.
  - destruct (GitService.trigger_immediate_project_synchronization _ svc1)
      as [[[]|e] svc2] eqn:Htrigger; simpl.
    + split; [|discriminate].
      intros response s' [= <- <-]. left. simpl.
      split; [done|]. split; [|done]. by exists saved, svc1.
    + split.
      * intros response s' Hout. right.
        destruct e; simpl in Hout; inversion Hout; subst; simpl;
          (split; [done|]); eexists;
          (split; [right; by exists saved, svc1|]); auto.
      * intros e' s' Hout.
        destruct e; simpl in Hout; inversion Hout; subst; simpl;
          (split; [right; by exists saved, svc1|]); done.
  - split.
    + intros response s' Hout. right.
      destruct e; simpl in Hout; inversion Hout; subst; simpl;
        (split; [done|]); eexists; (split; [by left|]); auto.
    + intros e' s' Hout.
      destruct e; simpl in Hout; inversion Hout; subst; simpl;
        (split; [by left|]); done.
Qed.

(** *** Concurrent operations *)

(** X18.  Only [create_commit] answers [GitConcurrentOperationException].  When
    saving, updating, checking out or synchronizing raises it, the handlers
    [add_repository], [update_repository] and [checkout_branch] let it
    through unhandled. *)
Theorem concurrent_operation_only_answered_by_create_commit
    request project_id repository_id branch_name s svc' :
  let git_service := _git request project_id (Some repository_id) in
  let busy := GitConcurrentOperationException in
  let left_alone :=
    {| service := svc'; websocket := websocket s; log := log s |} in
  (GitService.save_repository (_git request project_id None)
     (request_json request) (service s) = (Raise busy, svc') ->
   add_repository request project_id s = (Raise busy, left_alone))
  /\ (GitService.update_repository git_service (request_json request)
        (service s) = (Raise busy, svc') ->
      update_repository request project_id repository_id s
      = (Raise busy, left_alone))
  /\ (GitService.checkout_branch git_service branch_name
        (bool_arg request "force" false) false (service s)
      = (Raise busy, svc') ->
      checkout_branch request project_id repository_id branch_name s
      = (Raise busy, left_alone))
  /\ (forall svc1,
        GitService.checkout_branch git_service branch_name
          (bool_arg request "force" false) false (service s)
        = (Ok tt, svc1) ->
        GitService.synchronize_project git_service true svc1
        = (Raise busy, svc') ->
        checkout_branch request project_id repository_id branch_name s
        = (Raise busy, left_alone)).
Proof.
  cbv zeta. split; [|split; [|split]].
  - intros Hsave. unfold add_repository. run_handler. by rewrite Hsave.
  - intros Hupdate. unfold update_repository. run_handler. by rewrite Hupdate.
  - intros Hco. unfold checkout_branch. run_handler. by rewrite Hco.
  - intros svc1 Hco Hsync. unfold checkout_branch. run_handler.
    rewrite Hco. simpl. by rewrite Hsync.
Qed.

(** *** Looking up and deleting a repository *)

(** X19.  [get_repository], [delete_repository] and [get_repository_status]
    answer 200, 204 and 200 when the service returns, and 404 with the code
    [RepositoryNotFound] when it raises [ValueError]; any exception that is
    not a [ValueError] leaves the handler as it was raised.  None of them
    sends a message to the websocket service. *)
Theorem repository_lookups_answer_404 request project_id repository_id s :
  let git_service := _git request project_id (Some repository_id) in
  let answers {A} (call_result : result A * Svc)
        (outcome : result HTTPResponse * api_state Svc)
        (success : A -> HTTPResponse) :=
    websocket outcome.2 = websocket s
    /\ service outcome.2 = call_result.2
    /\ match call_result.1 with
       | Ok a => outcome.1 = Ok (success a)
       | Raise e =>
           if issubclass e ValueError
           then exists response,
                  outcome.1 = Ok response
                  /\ status response = 404%Z
                  /\ content response
                     = error_body "RepositoryNotFound"
                         (Some ("Repository with ID '"
                                +:+ pretty repository_id
                                +:+ "' could not be found."))
                         (Some e)
           else outcome.1 = Raise e
       end in
  answers (GitRepositoryService.get_repository git_service (service s))
    (get_repository request project_id repository_id s)
    (fun repository => response_json repository 200)
  /\ answers (GitRepositoryService.delete_repository git_service (service s))
       (delete_repository request project_id repository_id s)
       (fun _ => response_text "" 204)
  /\ answers
       (GitRepositoryService.get_repository_status git_service (service s))
       (get_repository_status request project_id repository_id s)
       (fun repository_status => response_json repository_status 200).
Proof.
  cbv zeta.
  unfold get_repository, delete_repository, get_repository_status,
    repository_not_found.
  run_handler.
  split; [|split].
  - destruct (GitRepositoryService.get_repository _ _) as [[a|e] svc'];
      simpl; [done|].
    destruct (issubclass e ValueError); simpl; [|done].
    split; [done|]. split; [done|]. by eexists.
  - destruct (GitRepositoryService.delete_repository _ _) as [[[]|e] svc'];
      simpl; [done|].
    destruct (issubclass e ValueError); simpl; [|done].
    split; [done|]. split; [done|]. by eexists.
  - destruct (GitRepositoryService.get_repository_status _ _)
      as [[a|e] svc']; simpl; [done|].
    destruct (issubclass e ValueError); simpl; [|done].
    split; [done|]. split; [done|]. by eexists.
Qed.

End WithService.

Lemma create_commit_status_tells_cause_busy :
  let git := Samples.failing_service GitConcurrentOperationException in
  exists response s',
    create_commit (git := git) 100 Samples.sample_request "default" 1 "main"
      Samples.fresh = (Ok response, s')
    /\ status response = 409%Z
    /\ websocket s' = [].
Proof.
  intros git. eexists _, _. split; [vm_compute; reflexivity|].
  destruct (proj1 (create_commit_status_tells_cause (git := git) 100%Z
                     Samples.sample_request "default" 1%Z "main" Samples.fresh)
              _ _ eq_refl)
    as [(Hstatus & _) | (Hws & e & _ & [[Hs _] | [[Hs _] | [Hs _]]])];
    try discriminate Hstatus; try discriminate Hs.
  split; [exact Hs | exact Hws].
Defined.

Lemma add_repository_status_tells_cause_layout :
  let git := Samples.failing_service ProjectLayoutError in
  exists response s',
    add_repository (git := git) Samples.sample_request "default" Samples.fresh
    = (Ok response, s')
    /\ status response = 400%Z
    /\ websocket s' = [].
Proof.
  intros git. eexists _, _. split; [vm_compute; reflexivity|].
  destruct (proj1 (add_repository_status_tells_cause (git := git)
                     Samples.sample_request "default" Samples.fresh)
              _ _ eq_refl)
    as [(Hstatus & _) | (Hws & e & _ & [[Hs _] | [[Hs _] | [Hs _]]])];
    try discriminate Hstatus; try discriminate Hs.
  split; [exact Hs | exact Hws].
Defined.

Lemma concurrent_operation_only_answered_by_create_commit_busy :
  let git := Samples.failing_service GitConcurrentOperationException in
  GitService.checkout_branch (methods := git)
    (_git Samples.sample_request "default" (Some 1%Z)) "feature"
    (bool_arg (CommonUtils := Samples.sample_utils) Samples.sample_request
       "force" false) false tt
  = (Raise GitConcurrentOperationException, tt)
  /\ checkout_branch (git := git) (utils := Samples.sample_utils)
       Samples.sample_request "default" 1 "feature" Samples.fresh
     = (Raise GitConcurrentOperationException, Samples.fresh).
Proof.
  intros git. split; [reflexivity|].
  destruct (concurrent_operation_only_answered_by_create_commit (git := git)
              (utils := Samples.sample_utils)
              Samples.sample_request "default" 1%Z "feature" Samples.fresh tt)
    as (_ & _ & Hcheckout & _).
  exact (Hcheckout eq_refl).
Defined.

Lemma repository_lookups_answer_404_missing :
  let repositories := RepositorySamples.failing_repositories ValueError in
  exists response,
    (delete_repository (repositories := repositories) Samples.sample_request
       "default" 7 Samples.fresh).1 = Ok response
    /\ status response = 404%Z
    /\ content response
       = error_body "RepositoryNotFound"
           (Some "Repository with ID '7' could not be found.")
           (Some ValueError).
Proof.
  intros repositories.
  destruct (repository_lookups_answer_404 (repositories := repositories)
              Samples.sample_request "default" 7%Z Samples.fresh)
    as (_ & (_ & _ & Hdelete) & _).
  exact Hdelete.
Defined.

End GitExtras.
